(** * inspect_potx: a shallow embedding of [scripts/inspect_potx.py]

    The script opens a presentation with python-pptx, walks
    slide -> shape -> text/image and prints one line per finding; its
    [main] optionally converts the input with LibreOffice first.

    The embedding follows the script statement by statement.  Python objects
    handed over by python-pptx are records of attribute reads, every read
    either yielding a value or raising; [print] appends its argument, as
    one entry, to the list of lines printed; the file system and the
    external converter are an explicit world. *)

From Stdlib Require Import String Ascii.
From Stdlib Require Import List Bool Arith NArith ZArith Lia.
From Stdlib Require Decimal DecimalString.
Import ListNotations.

Local Open Scope list_scope.

(** ** Python strings *)

(** A [str] is a sequence of Unicode code points; [len] is [length] and
    slicing [s[:n]] is [firstn n s]. *)
Definition pychar := N.
Definition pystr := list pychar.

(** An ASCII literal of the source. *)
Definition lit (s : string) : pystr :=
  map N_of_ascii (list_ascii_of_string s).

(** [str(n)] of a non-negative int. *)
Definition str_of_nat (n : nat) : pystr :=
  lit (DecimalString.NilEmpty.string_of_uint (Nat.to_uint n)).

Definition str_of_N (n : N) : pystr :=
  lit (DecimalString.NilEmpty.string_of_uint (N.to_uint n)).

Definition pystr_eqb (a b : pystr) : bool :=
  if list_eq_dec N.eq_dec a b then true else false.

(** [s.startswith(p)] *)
Fixpoint startswith (s p : pystr) {struct p} : bool :=
  match p, s with
  | [], _ => true
  | _ :: _, [] => false
  | c :: p', d :: s' => N.eqb c d && startswith s' p'
  end.

(** [s.endswith(p)] *)
Definition endswith (s p : pystr) : bool :=
  startswith (rev s) (rev p).

(** [c.isspace()]: the code points CPython's [str.strip()] removes. *)
Definition isspace (c : pychar) : bool :=
  let inr lo hi := (N.leb lo c && N.leb c hi)%bool in
  (inr 9 13 || inr 28 32 || N.eqb c 133 || N.eqb c 160
   || N.eqb c 5760 || inr 8192 8202 || inr 8232 8233
   || N.eqb c 8239 || N.eqb c 8287 || N.eqb c 12288)%N%bool.

Fixpoint lstrip (s : pystr) : pystr :=
  match s with
  | [] => []
  | c :: s' => if isspace c then lstrip s' else s
  end.

Definition rstrip (s : pystr) : pystr := rev (lstrip (rev s)).

(** [s.strip()] *)
Definition strip (s : pystr) : pystr := lstrip (rstrip s).

Definition LF : pychar := 10%N.
Definition SPACE : pychar := 32%N.

(** [s.replace(old, new)] for one-character [old] and [new]. *)
Definition replace (old new : pychar) (s : pystr) : pystr :=
  map (fun c => if N.eqb c old then new else c) s.

(** [sep.join(parts)] *)
Fixpoint join (sep : pystr) (parts : list pystr) : pystr :=
  match parts with
  | [] => []
  | [p] => p
  | p :: rest => p ++ sep ++ join sep rest
  end.

(** [s.lower()].  Only its comparisons with the ASCII literals '.potx',
    '.odp' and '.pptx' are observed, and no code point outside A-Z lowers
    to a letter of those, so the ASCII range is what matters here. *)
Definition lower (s : pystr) : pystr :=
  map (fun c => if (N.leb 65 c && N.leb c 90)%bool then (c + 32)%N else c) s.

(** Truthiness of a [str] *)
Definition nonempty (s : pystr) : bool :=
  match s with [] => false | _ => true end.

(** ** Exceptions and attribute reads *)

(** Subclasses of [Exception] the script tells apart. *)
Inductive exn : Type :=
| AttributeError
| CalledProcessError
| OtherException.

(** Outcome of evaluating an expression: a value or a raised exception. *)
Inductive access (A : Type) : Type :=
| Got (a : A)
| Raised (e : exn).
Arguments Got {A} a.
Arguments Raised {A} e.

Definition abind {A B} (x : access A) (k : A -> access B) : access B :=
  match x with
  | Got a => k a
  | Raised e => Raised e
  end.

Declare Scope access_scope.
Delimit Scope access_scope with access.
Notation "x <- c ;; k" := (abind c (fun x => k))
  (at level 100, c at next level, right associativity) : access_scope.

(** [getattr(obj, name, default)]: only [AttributeError] selects the
    default, anything else the read raises goes on. *)
Definition getattr {A} (read : access A) (default : A) : access A :=
  match read with
  | Raised AttributeError => Got default
  | _ => read
  end.

(** [hasattr(obj, name)]: the read is performed; [AttributeError] means
    [False], another exception goes on. *)
Definition hasattr {A} (read : access A) : access bool :=
  match read with
  | Got _ => Got true
  | Raised AttributeError => Got false
  | Raised e => Raised e
  end.

(** [try: body / except Exception: handler] for a handler that yields a
    value. *)
Definition try_except {A} (body : access A) (handler : A) : A :=
  match body with
  | Got a => a
  | Raised _ => handler
  end.

(** ** The objects python-pptx hands to the script

    One field per attribute the script reads.  Nothing is written to these
    objects, so a read has the same outcome each time it is evaluated. *)

(** A value of [shape.shape_type]: a member of [MSO_SHAPE_TYPE], or
    whatever else the library version in use returns. *)
Record MsoShapeType : Type := {
  member_name : access pystr;   (* stype.name *)
  member_str : pystr;           (* str(stype) *)
  is_PICTURE : bool             (* stype == MSO_SHAPE_TYPE.PICTURE *)
}.

Record Image : Type := {
  image_blob : access (list Byte.byte);
  filename : access (option pystr);
  ext : access pystr
}.

Record PlaceholderFormat : Type := {
  idx : access N
}.

Record Shape : Type := {
  element : N;                  (* the XML element the shape proxies *)
  shape_type : access MsoShapeType;
  is_placeholder : access bool;
  placeholder_format : access PlaceholderFormat;
  has_text_frame : access bool;
  text : access pystr;
  image : access Image
}.

(** [slide.shapes]: iterating yields [shape_list] in document order. *)
Record Shapes : Type := {
  shape_list : list Shape;
  title : access (option Shape)
}.

Record Layout : Type := {
  layout_name : access (option pystr)
}.

Record NotesSlide : Type := {
  notes_shapes : access (list Shape)
}.

Record RelatedPart : Type := {
  content_type : access pystr;
  blob : access (list Byte.byte);
  partname : access pystr
}.

(** [slide.part]; [related_parts] lists the dict's [values()] in the
    dict's order. *)
Record Part : Type := {
  related_parts : access (list RelatedPart)
}.

Record Slide : Type := {
  shapes : access Shapes;
  slide_layout : access (option Layout);
  notes_slide : access NotesSlide;
  part : access Part
}.

Record Presentation : Type := {
  slides : list Slide
}.

(** [a == b] on shapes: python-pptx compares the proxied elements, and a
    shape never equals [None]. *)
Definition shape_eq (a : Shape) (b : option Shape) : bool :=
  match b with
  | Some s => N.eqb (element a) (element s)
  | None => false
  end.

(** ** Printing *)

(** A computation that prints lines and then returns or raises. *)
Definition out (A : Type) : Type := (list pystr * access A)%type.

Definition ret {A} (a : A) : out A := ([], Got a).

Definition bind {A B} (m : out A) (k : A -> out B) : out B :=
  match m with
  | (o, Got a) => let (o', r) := k a in (o ++ o', r)
  | (o, Raised e) => (o, Raised e)
  end.

(** [print(s)] in [summarize_presentation]: the report goes to a stdout
    that takes its lines. *)
Definition print (s : pystr) : out unit := ([s], Got tt).

(** An expression evaluated for its value. *)
Definition eval {A} (x : access A) : out A := ([], x).

Declare Scope out_scope.
Delimit Scope out_scope with out.
Notation "x <~ c ;; k" := (bind c (fun x => k))
  (at level 100, c at next level, right associativity) : out_scope.
Notation "c >> k" := (bind c (fun _ => k))
  (at level 100, k at level 200, right associativity) : out_scope.

Local Open Scope access_scope.
Local Open Scope out_scope.

(** ** summarize_presentation *)

(** [s.strip().replace('\n', ' ')] *)
Definition normalize (s : pystr) : pystr := replace LF SPACE (strip s).

(** Lines 21-27: the title text, [None] when absent or unreadable. *)
Definition title_text (slide : Slide) : option pystr :=
  try_except
    (sh <- shapes slide ;;
     title_shape <- title sh ;;
     match title_shape with
     | Some ts =>
         h <- getattr (has_text_frame ts) false ;;
         if h then t <- text ts ;; Got (Some (normalize t))
         else Got None
     | None => Got None
     end)
    None.

(** Lines 28-29 *)
Definition print_title (slide : Slide) : out unit :=
  match title_text slide with
  | Some t => if nonempty t then print (lit "Title: " ++ t) else ret tt
  | None => ret tt
  end.

(** Lines 31-35 *)
Definition print_layout (slide : Slide) : out unit :=
  layout <~ eval (getattr (slide_layout slide) None) ;;
  match layout with
  | Some l =>
      name <~ eval (getattr (layout_name l) None) ;;
      match name with
      | Some n => if nonempty n then print (lit "Layout: " ++ n) else ret tt
      | None => ret tt
      end
  | None => ret tt
  end.

(** Line 40 *)
Definition typename_of (stype : MsoShapeType) : access pystr :=
  b <- hasattr (member_name stype) ;;
  if b then member_name stype else Got (member_str stype).

(** Lines 43-47 *)
Definition mark_title (slide : Slide) (shape : Shape) (info : pystr) : pystr :=
  try_except
    (sh <- shapes slide ;;
     t <- getattr (title sh) None ;;
     Got (if shape_eq shape t then info ++ lit " [TITLE]" else info))
    info.

(** Lines 48-53 *)
Definition mark_placeholder (shape : Shape) (info : pystr) : access pystr :=
  p <- getattr (is_placeholder shape) false ;;
  Got (if p : bool then
         try_except
           (pf <- placeholder_format shape ;;
            pidx <- idx pf ;;
            Got (info ++ lit " (placeholder idx=" ++ str_of_N pidx ++ lit ")"))
           info
       else info).

(** Line 56 *)
Definition snippet (txt : pystr) : pystr :=
  firstn 300 txt ++ (if 300 <? length txt then lit "..." else []).

(** Lines 54-57 *)
Definition add_text (shape : Shape) (info : pystr) : access pystr :=
  h <- getattr (has_text_frame shape) false ;;
  if h : bool then
    t <- text shape ;;
    Got (info ++ lit " | text='" ++ snippet (normalize t) ++ lit "'")
  else Got info.

(** The format of [getattr(img, 'filename', 'embedded')] in line 63 *)
Definition format_filename (f : option pystr) : pystr :=
  match f with
  | Some s => s
  | None => lit "None"
  end.

Definition could_not_read : pystr := lit " | picture: (could not read image)".

(** Lines 59-65 *)
Definition add_picture (stype : MsoShapeType) (shape : Shape) (info : pystr)
  : access pystr :=
  pic <- (if is_PICTURE stype then Got true else hasattr (image shape)) ;;
  Got (if pic : bool then
         try_except
           (img <- image shape ;;
            b <- image_blob img ;;
            f <- getattr (filename img) (Some (lit "embedded")) ;;
            e <- ext img ;;
            Got (info ++ lit " | picture: " ++ format_filename f ++ lit " ("
                   ++ str_of_nat (length b) ++ lit " bytes, ext=" ++ e
                   ++ lit ")"))
           (info ++ could_not_read)
       else info).

(** Lines 39-65: the line of one shape, before it is printed. *)
Definition shape_info (slide : Slide) (si : nat) (shape : Shape) : access pystr :=
  stype <- shape_type shape ;;
  typename <- typename_of stype ;;
  let info := lit "Shape " ++ str_of_nat si ++ lit ": " ++ typename in
  let info := mark_title slide shape info in
  info <- mark_placeholder shape info ;;
  info <- add_text shape info ;;
  add_picture stype shape info.

(** Lines 39-67: one pass of the shape loop. *)
Definition print_shape (slide : Slide) (si : nat) (shape : Shape) : out unit :=
  info <~ eval (shape_info slide si shape) ;;
  print info.

(** Lines 38-67, from index [si] on *)
Fixpoint print_shapes (slide : Slide) (si : nat) (l : list Shape) : out unit :=
  match l with
  | [] => ret tt
  | shape :: rest =>
      print_shape slide si shape >>
      print_shapes slide (S si) rest
  end.

(** Lines 73-77 *)
Fixpoint notes_texts (l : list Shape) : access (list pystr) :=
  match l with
  | [] => Got []
  | nsh :: rest =>
      h <- getattr (has_text_frame nsh) false ;;
      here <- (if h : bool then
                 t <- text nsh ;;
                 Got (if nonempty (normalize t) then [normalize t] else [])
               else Got []) ;;
      more <- notes_texts rest ;;
      Got (here ++ more)
  end.

(** Line 79 *)
Definition notes_join (texts : list pystr) : pystr :=
  firstn 400 (join (lit " | ") texts).

(** Lines 71-77: the texts of the note shapes *)
Definition collect_notes (slide : Slide) : access (list pystr) :=
  ns <- notes_slide slide ;;
  l <- notes_shapes ns ;;
  notes_texts l.

(** Lines 70-82 *)
Definition print_notes (slide : Slide) : out unit :=
  match collect_notes slide with
  | Got texts =>
      match texts with
      | [] => ret tt
      | _ => print (lit "Notes: " ++ notes_join texts)
      end
  | Raised _ => ret tt
  end.

(** Line 93 *)
Definition image_item (pn ct size : pystr) : pystr :=
  pn ++ lit " (" ++ ct ++ lit ", " ++ size ++ lit " bytes)".

(** Lines 86-93 *)
Fixpoint image_items (l : list RelatedPart) : access (list pystr) :=
  match l with
  | [] => Got []
  | rel :: rest =>
      ct <- getattr (content_type rel) [] ;;
      here <- (if startswith ct (lit "image/") then
                 let size := try_except
                               (b <- blob rel ;; Got (str_of_nat (length b)))
                               (lit "unknown") in
                 pn <- partname rel ;;
                 Got [image_item pn ct size]
               else Got []) ;;
      more <- image_items rest ;;
      Got (here ++ more)
  end.

(** Lines 96-97: [print(" -", it)] joins its arguments with a space. *)
Fixpoint print_items (imgs : list pystr) : out unit :=
  match imgs with
  | [] => ret tt
  | it :: rest => print (lit " -" ++ lit " " ++ it) >> print_items rest
  end.

(** Lines 84-97 *)
Definition print_images (slide : Slide) : out unit :=
  imgs <~ eval (p <- part slide ;;
                rp <- getattr (related_parts p) [] ;;
                image_items rp) ;;
  match imgs with
  | [] => ret tt
  | _ => print (lit "Images in slide:") >> print_items imgs
  end.

Definition slide_header (i : nat) : pystr :=
  lit "--- Slide " ++ str_of_nat i ++ lit " ---".

(** Lines 19-99: one pass of the slide loop. *)
Definition print_slide (i : nat) (slide : Slide) : out unit :=
  print (slide_header i) >>
  print_title slide >>
  print_layout slide >>
  (sh <~ eval (shapes slide) ;; print_shapes slide 1 (shape_list sh)) >>
  print_notes slide >>
  print_images slide >>
  print [].

(** Lines 18-99, from index [i] on *)
Fixpoint print_slides (i : nat) (l : list Slide) : out unit :=
  match l with
  | [] => ret tt
  | slide :: rest => print_slide i slide >> print_slides (S i) rest
  end.

(** Lines 12-99.  [open_pptx] is [Presentation(path)] of python-pptx. *)
Definition summarize_presentation
    (open_pptx : pystr -> access Presentation) (path : pystr) : out unit :=
  prs <~ eval (open_pptx path) ;;
  print (lit "File: " ++ path) >>
  print (lit "Slide count: " ++ str_of_nat (length (slides prs))) >>
  print [] >>
  print_slides 1 (slides prs).

(** ** Paths ([os.path] on POSIX) *)

Definition SLASH : pychar := 47%N.
Definition DOT : pychar := 46%N.

(** [p.rfind(c)]: the last index of [c], or -1. *)
Fixpoint rfind_from (c : pychar) (p : pystr) (i found : Z) : Z :=
  match p with
  | [] => found
  | d :: p' => rfind_from c p' (i + 1)%Z (if N.eqb d c then i else found)
  end.

Definition rfind (c : pychar) (p : pystr) : Z := rfind_from c p 0%Z (-1)%Z.

(** [p[a:b]] for [0 <= a] *)
Definition slice (p : pystr) (a b : Z) : pystr :=
  firstn (Z.to_nat (b - a)) (skipn (Z.to_nat a) p).

(** [os.path.splitext(p)]: the extension starts at the last dot of the last
    component, unless only dots precede it there. *)
Definition splitext (p : pystr) : pystr * pystr :=
  let sepIndex := rfind SLASH p in
  let dotIndex := rfind DOT p in
  if (sepIndex <? dotIndex)%Z then
    if forallb (N.eqb DOT) (slice p (sepIndex + 1) dotIndex) then (p, [])
    else (firstn (Z.to_nat dotIndex) p, skipn (Z.to_nat dotIndex) p)
  else (p, []).

(** [os.path.basename(p)] *)
Definition basename (p : pystr) : pystr :=
  skipn (Z.to_nat (rfind SLASH p + 1)) p.

(** [os.path.join(a, b)] *)
Definition path_join (a b : pystr) : pystr :=
  if startswith b [SLASH] then b
  else if negb (nonempty a) || endswith a [SLASH] then a ++ b
  else a ++ [SLASH] ++ b.

(** ** The world [main] runs in *)

(** Calls that leave the process, in the order [main] makes them. *)
Inductive call : Type :=
| Mkdtemp (d : pystr)
| Run (argv : list pystr)
| Open (path : pystr)
| Rmtree (d : pystr).

Record World : Type := {
  fs : list pystr;        (* the paths that exist *)
  stdout : list pystr;    (* the lines printed so far *)
  calls : list call
}.

(** What the surroundings answer; the script decides none of it. *)
Record Environment : Type := {
  (* shutil.which(name) *)
  which : pystr -> option pystr;
  (* tempfile.mkdtemp: the directory for temporary files and a fresh name *)
  mkdtemp : list pystr -> access (pystr * pystr);
  (* subprocess.run(argv, check=True): what the child does to the file
     system; a non-zero exit status raises CalledProcessError *)
  subprocess_run : list pystr -> list pystr -> list pystr * access unit;
  (* whether shutil.rmtree(d) fails *)
  rmtree_error : pystr -> list pystr -> option exn;
  (* Presentation(path) *)
  open_pptx : list pystr -> pystr -> access Presentation;
  (* the characters beyond ASCII that the encoding of stdout has *)
  stdout_encodes : pychar -> bool
}.

(** [os.path.exists(p)] *)
Definition path_exists (w : World) (p : pystr) : bool :=
  existsb (pystr_eqb p) (fs w).

(** Whether stdout can encode [s]; the ASCII range is in every encoding a
    text stream is opened with. *)
Definition printable (E : Environment) (s : pystr) : bool :=
  forallb (fun c => N.ltb c 128 || stdout_encodes E c) s.

(** [print(s)] in [main]: a line on stdout, or [UnicodeEncodeError] (an
    [Exception]) when stdout cannot encode it. *)
Definition say (E : Environment) (s : pystr) (w : World) : World * access unit :=
  if printable E s then
    ({| fs := fs w; stdout := stdout w ++ [s]; calls := calls w |}, Got tt)
  else (w, Raised OtherException).

Definition record (c : call) (files : list pystr) (w : World) : World :=
  {| fs := files; stdout := stdout w; calls := calls w ++ [c] |}.

(** [d] itself and what lies below it *)
Definition under (d p : pystr) : bool :=
  pystr_eqb p d || startswith p (d ++ [SLASH]).

Definition remove_tree (d : pystr) (files : list pystr) : list pystr :=
  filter (fun p => negb (under d p)) files.

(** [shutil.rmtree(d)] *)
Definition rmtree (E : Environment) (d : pystr) (w : World)
  : World * access unit :=
  match rmtree_error E d (fs w) with
  | None => (record (Rmtree d) (remove_tree d (fs w)) w, Got tt)
  | Some e => (record (Rmtree d) (fs w) w, Raised e)
  end.

(** ** main *)

Inductive outcome : Type :=
| Returned
| UsageError (msg : pystr)   (* parser.error: usage on stderr, exit status 2 *)
| Uncaught (e : exn).

Definition DEFAULT_CANDIDATES : list pystr :=
  [lit "disco-template.pptx"; lit "disco-template.potx";
   lit "disco-template.odp"].

Definition no_input_message : pystr :=
  lit "no input file provided and no disco-template.* found".

(** Lines 109-114 *)
Definition choose_file (w : World) (file : option pystr) : option pystr :=
  match file with
  | Some f => Some f
  | None => find (path_exists w) DEFAULT_CANDIDATES
  end.

(** Line 122-123 *)
Definition needs_convert (file_arg : pystr) : bool :=
  let ext := lower (snd (splitext file_arg)) in
  (pystr_eqb ext (lit ".potx") || pystr_eqb ext (lit ".odp"))
  && negb (endswith (lower file_arg) (lit ".pptx")).

Definition not_found_message : pystr :=
  lit "LibreOffice (soffice) not found; cannot auto-convert .potx/.odp".

Definition soffice_argv (soffice file_arg tmpdir : pystr) : list pystr :=
  [soffice; lit "--headless"; lit "--convert-to"; lit "pptx"; file_arg;
   lit "--outdir"; tmpdir].

(** Lines 128-135, the body of the [try]: the world it leaves, the value of
    [converted_path] when it ends, and how it ends. *)
Definition try_convert (E : Environment) (soffice file_arg converted_tmpdir : pystr)
    (w : World) : World * pystr * access unit :=
  let argv := soffice_argv soffice file_arg converted_tmpdir in
  let (files, status) := subprocess_run E argv (fs w) in
  let w := record (Run argv) files w in
  match status with
  | Got _ =>
      let base := fst (splitext (basename file_arg)) in
      let candidate := path_join converted_tmpdir (base ++ lit ".pptx") in
      if path_exists w candidate then
        let (w, printed) :=
          say E (lit "Converted " ++ file_arg ++ lit " -> " ++ candidate) w in
        (w, candidate, printed)
      else
        let (w, printed) :=
          say E (lit "Conversion produced no .pptx; will attempt to open original file") w in
        (w, file_arg, printed)
  | Raised e => (w, file_arg, Raised e)
  end.

(** Lines 126-137, once [soffice] is known: the temporary directory and the
    path to inspect.  Only [CalledProcessError] is handled; anything else
    the body raises leaves [main]. *)
Definition run_conversion (E : Environment) (soffice file_arg : pystr)
    (w : World) : World * access (option pystr * pystr) :=
  match mkdtemp E (fs w) with
  | Raised e => (w, Raised e)
  | Got (dir, name) =>
      let converted_tmpdir := path_join dir (lit "pptx_convert_" ++ name) in
      let w := record (Mkdtemp converted_tmpdir) (converted_tmpdir :: fs w) w in
      match try_convert E soffice file_arg converted_tmpdir w with
      | (w, converted_path, Got _) => (w, Got (Some converted_tmpdir, converted_path))
      | (w, converted_path, Raised CalledProcessError) =>
          let (w, printed) :=
            say E (lit "LibreOffice conversion failed; attempting to open original file") w in
          (w, abind printed (fun _ => Got (Some converted_tmpdir, converted_path)))
      | (w, _, Raised e) => (w, Raised e)
      end
  end.

(** Lines 119-139 *)
Definition convert (E : Environment) (file_arg : pystr) (w : World)
  : World * access (option pystr * pystr) :=
  let not_found : World * access (option pystr * pystr) :=
    let (w, printed) := say E not_found_message w in
    (w, abind printed (fun _ => Got (None, file_arg))) in
  if needs_convert file_arg then
    match which E (lit "soffice") with
    | Some soffice =>
        if nonempty soffice then run_conversion E soffice file_arg w
        else not_found
    | None => not_found
    end
  else (w, Got (None, file_arg)).

(** Lines 144-148: the [finally] block; what [rmtree] raises is dropped. *)
Definition cleanup (E : Environment) (converted_tmpdir : option pystr)
    (w : World) : World :=
  match converted_tmpdir with
  | Some d => if nonempty d then fst (rmtree E d w) else w
  | None => w
  end.

(** Lines 141-148 *)
Definition inspect (E : Environment) (converted_tmpdir : option pystr)
    (converted_path : pystr) (w : World) : World * outcome :=
  let (lines, r) := summarize_presentation (open_pptx E (fs w)) converted_path in
  let w := {| fs := fs w; stdout := stdout w ++ lines;
              calls := calls w ++ [Open converted_path] |} in
  (cleanup E converted_tmpdir w,
   match r with
   | Got _ => Returned
   | Raised e => Uncaught e
   end).

(** Lines 102-148; [file] is [args.file]. *)
Definition main (E : Environment) (file : option pystr) (w : World)
  : World * outcome :=
  match choose_file w file with
  | None => (w, UsageError no_input_message)
  | Some file_arg =>
      match convert E file_arg w with
      | (w, Got (converted_tmpdir, converted_path)) =>
          inspect E converted_tmpdir converted_path w
      | (w, Raised e) => (w, Uncaught e)
      end
  end.

(** ** A sample document *)

Module Sample.

Definition absent {A} : access A := Raised AttributeError.

Definition member (n : string) (pic : bool) : MsoShapeType :=
  {| member_name := Got (lit n); member_str := lit n; is_PICTURE := pic |}.

(** A text box *)
Definition text_box (el : N) (t : pystr) : Shape :=
  {| element := el;
     shape_type := Got (member "TEXT_BOX (17)" false);
     is_placeholder := Got false;
     placeholder_format := Raised OtherException;
     has_text_frame := Got true;
     text := Got t;
     image := absent |}.

(** A placeholder with text *)
Definition placeholder (el i : N) (t : pystr) : Shape :=
  {| element := el;
     shape_type := Got (member "PLACEHOLDER (14)" false);
     is_placeholder := Got true;
     placeholder_format := Got {| idx := Got i |};
     has_text_frame := Got true;
     text := Got t;
     image := absent |}.

Definition png : Image :=
  {| image_blob := Got [Byte.x89; Byte.x50; Byte.x4e; Byte.x47];
     filename := Got (Some (lit "logo.png"));
     ext := Got (lit "png") |}.

(** A picture whose image is embedded *)
Definition picture (el : N) : Shape :=
  {| element := el;
     shape_type := Got (member "PICTURE (13)" true);
     is_placeholder := Got false;
     placeholder_format := Raised OtherException;
     has_text_frame := Got false;
     text := absent;
     image := Got png |}.

(** A picture whose image is linked, not embedded *)
Definition linked_picture (el : N) : Shape :=
  {| element := el;
     shape_type := Got (member "PICTURE (13)" true);
     is_placeholder := Got false;
     placeholder_format := Raised OtherException;
     has_text_frame := Got false;
     text := absent;
     image := Raised OtherException |}.

(** A text-bearing shape whose text cannot be read *)
Definition unreadable (el : N) : Shape :=
  {| element := el;
     shape_type := Got (member "AUTO_SHAPE (1)" false);
     is_placeholder := Got false;
     placeholder_format := Raised OtherException;
     has_text_frame := Got true;
     text := Raised OtherException;
     image := absent |}.

Definition image_part : RelatedPart :=
  {| content_type := Got (lit "image/png");
     blob := Got [Byte.x89; Byte.x50; Byte.x4e; Byte.x47];
     partname := Got (lit "/ppt/media/image1.png") |}.

Definition layout_part : RelatedPart :=
  {| content_type :=
       Got (lit "application/vnd.openxmlformats-officedocument.presentationml.slideLayout+xml");
     blob := Got [];
     partname := Got (lit "/ppt/slideLayouts/slideLayout1.xml") |}.

Definition mk_slide (t : option Shape) (l : list Shape) (layout : string)
    (notes : list Shape) (rels : list RelatedPart) : Slide :=
  {| shapes := Got {| shape_list := l; title := Got t |};
     slide_layout := Got (Some {| layout_name := Got (Some (lit layout)) |});
     notes_slide := Got {| notes_shapes := Got notes |};
     part := Got {| related_parts := Got rels |} |}.

Definition heading_text : pystr := lit "  Welcome" ++ [LF] ++ lit "to DISCO ".

Definition heading : Shape := placeholder 2 0 heading_text.

Definition slide1 : Slide :=
  mk_slide (Some heading)
    [heading; placeholder 3 1 (lit "Subtitle"); picture 4]
    "Title Slide"
    [text_box 2 (lit "remember to smile"); text_box 3 (lit "  ");
     text_box 4 (lit "keep it short")]
    [layout_part; image_part].

Definition slide2 : Slide :=
  mk_slide None [text_box 2 (lit "Agenda"); linked_picture 3] "Blank" [] [layout_part].

Definition slide3 : Slide :=
  mk_slide None [unreadable 2] "Blank" [] [layout_part].

(** 150 repetitions of "ab": 300 characters *)
Definition ab300 : pystr := concat (repeat (lit "ab") 150).

(** A slide whose two notes hold 300 characters each *)
Definition wordy : Slide :=
  mk_slide None [] "Blank" [text_box 2 ab300; text_box 3 ab300] [].

Definition deck : Presentation := {| slides := [slide1; slide2] |}.

Definition broken_deck : Presentation := {| slides := [slide3; slide2] |}.

End Sample.

(** ** Reading a report *)

(** The kinds of line, told apart by how the line starts. *)
Definition is_slide_header (line : pystr) : bool := startswith line (lit "--- Slide ").
Definition is_title_line (line : pystr) : bool := startswith line (lit "Title:").
Definition is_shape_line (line : pystr) : bool := startswith line (lit "Shape ").
Definition is_notes_line (line : pystr) : bool := startswith line (lit "Notes:").
Definition is_images_header (line : pystr) : bool := startswith line (lit "Images in slide:").
Definition is_item_line (line : pystr) : bool := startswith line (lit " -").

(** The vertical tab.  In the [text] of a shape python-pptx puts a line feed
    between two paragraphs and a vertical tab for a line break inside a
    paragraph. *)
Definition VT : pychar := 11%N.

(** The characters that break a line: the boundaries of [str.splitlines],
    which are LF, VT, FF, CR, FS, GS, RS, NEL, LS and PS. *)
Definition is_line_break (c : pychar) : bool :=
  ((N.leb 10 c && N.leb c 13) || (N.leb 28 c && N.leb c 30)
   || N.eqb c 133 || N.eqb c 8232 || N.eqb c 8233)%bool.

(** What a report is expected to show of a document: a section per slide
    and, inside it, a line per shape. *)
Inductive entry : Type :=
| Section_of (i : nat)
| Shape_of (slide : Slide) (si : nat) (shape : Shape).

(** [enumerate(l, start=i)] *)
Fixpoint enumerate {A} (i : nat) (l : list A) : list (nat * A) :=
  match l with
  | [] => []
  | a :: rest => (i, a) :: enumerate (S i) rest
  end.

Definition slide_entries (i : nat) (slide : Slide) : list entry :=
  Section_of i ::
  match shapes slide with
  | Got sh => map (fun p => Shape_of slide (fst p) (snd p))
                  (enumerate 1 (shape_list sh))
  | Raised _ => []
  end.

(** The slides and their shapes in document order. *)
Definition outline (prs : Presentation) : list entry :=
  flat_map (fun p => slide_entries (fst p) (snd p)) (enumerate 1 (slides prs)).

(** The line that shows an entry. *)
Definition shows (e : entry) (line : pystr) : Prop :=
  match e with
  | Section_of i => line = slide_header i
  | Shape_of slide si shape => shape_info slide si shape = Got line
  end.

(** [line] starts with the literal [p]. *)
Definition begins (p : string) (line : pystr) : Prop :=
  exists rest, line = lit p ++ rest.

(** The section and shape lines of a report, in the order printed. *)
Definition structure (lines : list pystr) : list pystr :=
  filter (fun l => is_slide_header l || is_shape_line l) lines.

(** Lines that are neither a section header nor a shape line *)
Definition plain (l : pystr) : Prop :=
  is_slide_header l = false /\ is_shape_line l = false.

(** A read that yields a value or raises [AttributeError], which
    [getattr] with a default and [hasattr] absorb. *)
Definition tolerated {A} (read : access A) : bool :=
  match read with
  | Got _ => true
  | Raised AttributeError => true
  | Raised _ => false
  end.

(** The reads of lines 39-65 that stand outside every handler succeed. *)
Definition readable_shape (shape : Shape) : bool :=
  match shape_type shape with
  | Got stype =>
      tolerated (member_name stype)
      && tolerated (is_placeholder shape)
      && match getattr (has_text_frame shape) false with
         | Got true => match text shape with Got _ => true | Raised _ => false end
         | Got false => true
         | Raised _ => false
         end
      && (is_PICTURE stype || tolerated (image shape))
  | Raised _ => false
  end.

(** Likewise for lines 87-93 *)
Definition readable_part (rel : RelatedPart) : bool :=
  match getattr (content_type rel) [] with
  | Got ct =>
      if startswith ct (lit "image/") then
        match partname rel with Got _ => true | Raised _ => false end
      else true
  | Raised _ => false
  end.

(** Likewise for a whole pass of the slide loop *)
Definition readable_slide (slide : Slide) : bool :=
  match getattr (slide_layout slide) None with
  | Got (Some l) => tolerated (layout_name l)
  | Got None => true
  | Raised _ => false
  end
  && match shapes slide with
     | Got sh => forallb readable_shape (shape_list sh)
     | Raised _ => false
     end
  && match (p <- part slide ;; getattr (related_parts p) []) with
     | Got rp => forallb readable_part rp
     | Raised _ => false
     end.

(** What one note shape adds to the texts of the notes (lines 74-77) when
    its reads succeed: its text, trimmed and with line feeds replaced, if it
    has a text frame and that text is not empty; nothing otherwise. *)
Definition note_entry (nsh : Shape) : list pystr :=
  match getattr (has_text_frame nsh) false with
  | Got true =>
      match text nsh with
      | Got t => if nonempty (normalize t) then [normalize t] else []
      | Raised _ => []
      end
  | _ => []
  end.

(** Whether a related part counts as an image (lines 87-88) *)
Definition is_image_part (rel : RelatedPart) : bool :=
  match getattr (content_type rel) [] with
  | Got ct => startswith ct (lit "image/")
  | Raised _ => false
  end.

(** The relationship-linked parts of a slide, as line 86 reads them *)
Definition linked_parts (slide : Slide) : list RelatedPart :=
  match (p <- part slide ;; getattr (related_parts p) []) with
  | Got rp => rp
  | Raised _ => []
  end.

(** The converter invocation either returns or reports a failed conversion
    through its exit status. *)
Definition conversion_reports_by_status (E : Environment) : Prop :=
  forall argv files e,
    snd (subprocess_run E argv files) = Raised e -> e = CalledProcessError.

(** An environment for the examples: LibreOffice is installed or not; when
    run it ends as [status] says, having written [template.pptx] to the
    output directory if it returns; [rmtree] works if [removable]; every
    file opens as [doc], or fails to open when [doc] is [None]; stdout
    encodes every character. *)
Definition sample_env (installed : bool) (status : access unit)
    (removable : bool) (doc : option Presentation) : Environment :=
  {| which := fun _ => if installed then Some (lit "/usr/bin/soffice") else None;
     mkdtemp := fun _ => Got (lit "/tmp", lit "k3x9");
     subprocess_run := fun argv files =>
       match status with
       | Got _ => (path_join (nth 6 argv []) (lit "template.pptx") :: files, status)
       | Raised _ => (files, status)
       end;
     rmtree_error := fun _ _ => if removable then None else Some OtherException;
     open_pptx := fun _ _ =>
       match doc with
       | Some d => Got d
       | None => Raised OtherException
       end;
     stdout_encodes := fun _ => true |}.

Definition empty_world (files : list pystr) : World :=
  {| fs := files; stdout := []; calls := [] |}.

(** ** Further readings and samples *)

Definition is_layout_line (line : pystr) : bool := startswith line (lit "Layout:").

Module Gallery.

(** An image that was loaded from a stream: its file name is [None]. *)
Definition streamed : Image :=
  {| image_blob := Got [Byte.xff; Byte.xd8];
     filename := Got None;
     ext := Got (lit "jpg") |}.

(** An image object without a [filename] attribute *)
Definition nameless : Image :=
  {| image_blob := Got [Byte.x47; Byte.x49; Byte.x46];
     filename := Raised AttributeError;
     ext := Got (lit "gif") |}.

(** An image whose bytes cannot be read *)
Definition torn : Image :=
  {| image_blob := Raised OtherException;
     filename := Got (Some (lit "photo.png"));
     ext := Got (lit "png") |}.

(** A shape without text, of the given type, with the given image read *)
Definition frame (el : N) (n : string) (pic : bool) (img : access Image) : Shape :=
  {| element := el;
     shape_type := Got (Sample.member n pic);
     is_placeholder := Got false;
     placeholder_format := Raised OtherException;
     has_text_frame := Got false;
     text := Sample.absent;
     image := img |}.

(** An image part whose bytes cannot be read *)
Definition sealed_part : RelatedPart :=
  {| content_type := Got (lit "image/jpeg");
     blob := Raised OtherException;
     partname := Got (lit "/ppt/media/image2.jpeg") |}.

(** A slide with two image parts around a part that is no image *)
Definition illustrated : Slide :=
  Sample.mk_slide None [frame 2 "PICTURE (13)" true (Got streamed)] "Picture"
    [] [Sample.image_part; Sample.layout_part; sealed_part].

(** A slide whose layout has an empty name and whose notes cannot be read *)
Definition bare : Slide :=
  {| shapes := Got {| shape_list := [Sample.text_box 2 (lit "Agenda")];
                      title := Got None |};
     slide_layout := Got (Some {| layout_name := Got (Some []) |});
     notes_slide := Raised OtherException;
     part := Got {| related_parts := Got [] |} |}.

(** A title of one paragraph with a line break in it *)
Definition two_lines_text : pystr := lit " Line one" ++ [VT] ++ lit "line two ".

(** A slide whose only shape is that title *)
Definition two_lines : Slide :=
  Sample.mk_slide (Some (Sample.placeholder 2 0 two_lines_text))
    [Sample.placeholder 2 0 two_lines_text] "Title Only" [] [].

(** A note shape without a text frame whose [text] reads "7" all the same *)
Definition frameless_note : Shape :=
  {| element := 5;
     shape_type := Got (Sample.member "PLACEHOLDER (14)" false);
     is_placeholder := Got true;
     placeholder_format := Got {| idx := Got 12%N |};
     has_text_frame := Got false;
     text := Got (lit "7");
     image := Sample.absent |}.

(** A slide with three note shapes: one without a text frame, one with
    text, one blank *)
Definition annotated : Slide :=
  Sample.mk_slide None [] "Blank"
    [frameless_note; Sample.text_box 2 (lit " say hello "); Sample.text_box 3 (lit "  ")]
    [].

(** The name "caf?.potx" with U+00E9 for the fourth letter *)
Definition accented_name : pystr := lit "caf" ++ [233%N] ++ lit ".potx".

(** Surroundings for [accented_name]: LibreOffice is installed and writes
    the converted file under the input's base name; every file opens as the
    sample deck; stdout encodes ASCII only. *)
Definition ascii_stdout : Environment :=
  {| which := fun _ => Some (lit "/usr/bin/soffice");
     mkdtemp := fun _ => Got (lit "/tmp", lit "k3x9");
     subprocess_run := fun argv files =>
       (path_join (nth 6 argv [])
          (fst (splitext (basename (nth 4 argv []))) ++ lit ".pptx") :: files,
        Got tt);
     rmtree_error := fun _ _ => None;
     open_pptx := fun _ _ => Got Sample.deck;
     stdout_encodes := fun _ => false |}.

End Gallery.

(** * Properties *)

(** Settles what kind of line a line with a known beginning is. *)
Ltac line_kind :=
  repeat match goal with
         | H : begins _ _ |- _ => destruct H as [? ->]
         | H : _ \/ _ |- _ => destruct H
         end;
  subst; try reflexivity; try discriminate.


(** ** Strings *)

Section Strings.

Lemma startswith_app (p s : pystr) : startswith (p ++ s) p = true.
Proof.
  induction p as [|c p IH]; simpl; [reflexivity|].
  now rewrite N.eqb_refl, IH.
Qed.

Lemma startswith_spec (s p : pystr) :
  startswith s p = true <-> exists rest, s = p ++ rest.
Proof.
  split.
  - revert s; induction p as [|c p IH]; intros s H.
    + now exists s.
    + destruct s as [|d s]; simpl in H; [discriminate|].
      apply andb_true_iff in H as [Hc H].
      apply N.eqb_eq in Hc; subst d.
      destruct (IH _ H) as [rest ->]; now exists rest.
  - intros [rest ->]; apply startswith_app.
Qed.

Lemma lstrip_suffix (s : pystr) :
  exists pre, s = pre ++ lstrip s /\ forallb isspace pre = true.
Proof.
  induction s as [|c s [pre [E Hpre]]]; simpl.
  - now exists [].
  - destruct (isspace c) eqn:Hc.
    + exists (c :: pre); simpl; rewrite Hc, Hpre; split; [now f_equal|reflexivity].
    + now exists [].
Qed.

Lemma lstrip_head (s : pystr) (c : pychar) (r : pystr) :
  lstrip s = c :: r -> isspace c = false.
Proof.
  induction s as [|d s IH]; simpl; [discriminate|].
  destruct (isspace d) eqn:Hd; [exact IH|].
  intros E; injection E as -> _; exact Hd.
Qed.

Lemma lstrip_blank (s : pystr) : forallb isspace s = true -> lstrip s = [].
Proof.
  induction s as [|c s IH]; simpl; [reflexivity|].
  intros H; apply andb_true_iff in H as [-> H]; auto.
Qed.

Lemma forallb_rev {A} (f : A -> bool) (l : list A) :
  forallb f (rev l) = forallb f l.
Proof.
  induction l as [|a l IH]; simpl; [reflexivity|].
  rewrite forallb_app, IH; simpl; rewrite andb_true_r; apply andb_comm.
Qed.

Lemma rstrip_prefix (s : pystr) :
  exists post, s = rstrip s ++ post /\ forallb isspace post = true.
Proof.
  unfold rstrip.
  destruct (lstrip_suffix (rev s)) as [pre [E Hpre]].
  exists (rev pre); split.
  - rewrite <- rev_app_distr, <- E; symmetry; apply rev_involutive.
  - now rewrite forallb_rev.
Qed.

Lemma rstrip_last (s r : pystr) (c : pychar) :
  rstrip s = r ++ [c] -> isspace c = false.
Proof.
  unfold rstrip; intros E.
  apply (f_equal (@rev pychar)) in E.
  rewrite rev_involutive, rev_app_distr in E; simpl in E.
  exact (lstrip_head _ _ _ E).
Qed.

(** [strip] cuts a run of whitespace off each end and stops, on either
    side, at a character that is not whitespace. *)
Lemma strip_spec (s : pystr) :
  exists pre post,
    s = pre ++ strip s ++ post
    /\ forallb isspace pre = true
    /\ forallb isspace post = true
    /\ (forall c r, strip s = c :: r -> isspace c = false)
    /\ (forall r c, strip s = r ++ [c] -> isspace c = false).
Proof.
  unfold strip.
  destruct (rstrip_prefix s) as [post [Epost Hpost]].
  destruct (lstrip_suffix (rstrip s)) as [pre [Epre Hpre]].
  exists pre, post; repeat split; auto.
  - rewrite app_assoc, <- Epre; exact Epost.
  - intros c r; apply lstrip_head.
  - intros r c E.
    rewrite E in Epre.
    apply (rstrip_last s (pre ++ r)).
    now rewrite <- app_assoc.
Qed.

Lemma strip_blank (s : pystr) : forallb isspace s = true -> strip s = [].
Proof.
  intros H; unfold strip, rstrip.
  rewrite (lstrip_blank (rev s)); [reflexivity|].
  now rewrite forallb_rev.
Qed.

Lemma replace_length (old new : pychar) (s : pystr) :
  length (replace old new s) = length s.
Proof. apply length_map. Qed.

Lemma replace_removes (old new : pychar) (s : pystr) :
  new <> old -> ~ In old (replace old new s).
Proof.
  intros Hne Hin; unfold replace in Hin.
  apply in_map_iff in Hin as [c [E _]].
  destruct (N.eqb c old) eqn:Hc.
  - now apply Hne.
  - apply N.eqb_neq in Hc; now apply Hc.
Qed.

(** Replacing line feeds by spaces keeps a character that is not
    whitespace. *)
Lemma replace_LF_keeps (c : pychar) :
  isspace c = false -> (if N.eqb c LF then SPACE else c) = c.
Proof.
  intros H; destruct (N.eqb c LF) eqn:E; [|reflexivity].
  apply N.eqb_eq in E; subst c; discriminate.
Qed.

Lemma join_length (sep : pystr) (parts : list pystr) :
  length (join sep parts)
  = list_sum (map (@length pychar) parts) + length sep * (length parts - 1).
Proof.
  induction parts as [|p [|q rest] IH].
  - simpl; lia.
  - simpl; lia.
  - change (join sep (p :: q :: rest)) with (p ++ sep ++ join sep (q :: rest)).
    rewrite !length_app, IH; simpl; lia.
Qed.

Lemma snippet_short (txt : pystr) : length txt <= 300 -> snippet txt = txt.
Proof.
  intros H; unfold snippet.
  destruct (Nat.ltb_spec 300 (length txt)); [lia|].
  rewrite firstn_all2 by assumption; apply app_nil_r.
Qed.

Lemma snippet_long (txt : pystr) :
  300 < length txt ->
  snippet txt = firstn 300 txt ++ lit "..." /\ length (snippet txt) = 303.
Proof.
  intros H; unfold snippet.
  destruct (Nat.ltb_spec 300 (length txt)); [|lia].
  split; [reflexivity|].
  rewrite length_app, firstn_length_le by lia; reflexivity.
Qed.

Lemma snippet_bound (txt : pystr) : length (snippet txt) <= 303.
Proof.
  destruct (Nat.le_gt_cases (length txt) 300) as [H|H].
  - rewrite snippet_short; lia.
  - destruct (snippet_long txt H) as [_ ->]; lia.
Qed.

Lemma notes_join_bound (texts : list pystr) : length (notes_join texts) <= 400.
Proof. unfold notes_join; apply firstn_le_length. Qed.

End Strings.

(** ** Evaluation and printing *)

Section Output.

Context {A B : Type}.

Lemma abind_got (x : access A) (k : A -> access B) (b : B) :
  abind x k = Got b -> exists a, x = Got a /\ k a = Got b.
Proof. destruct x as [a|e]; simpl; [now exists a | discriminate]. Qed.

Lemma Got_inj (a a' : A) : Got a = Got a' -> a = a'.
Proof. congruence. Qed.

Lemma fst_bind (m : out A) (k : A -> out B) :
  fst (bind m k)
  = fst m ++ match snd m with Got a => fst (k a) | Raised _ => [] end.
Proof.
  destruct m as [o [a|e]]; simpl.
  - now destruct (k a).
  - now rewrite app_nil_r.
Qed.

Lemma snd_bind (m : out A) (k : A -> out B) :
  snd (bind m k) = match snd m with Got a => snd (k a) | Raised e => Raised e end.
Proof.
  destruct m as [o [a|e]]; simpl; [now destruct (k a) | reflexivity].
Qed.

Lemma bind_completes (m : out A) (k : A -> out B) (o : list pystr) (b : B) :
  bind m k = (o, Got b) ->
  exists o1 a o2, m = (o1, Got a) /\ k a = (o2, Got b) /\ o = o1 ++ o2.
Proof.
  destruct m as [o1 [a|e]]; simpl; [|discriminate].
  destruct (k a) as [o2 r] eqn:E; intros H; injection H as <- ->.
  now exists o1, a, o2.
Qed.

Lemma Forall_bind (P : pystr -> Prop) (m : out A) (k : A -> out B) :
  Forall P (fst m) -> (forall a, Forall P (fst (k a))) ->
  Forall P (fst (bind m k)).
Proof.
  intros Hm Hk; rewrite fst_bind; apply Forall_app; split; [exact Hm|].
  destruct (snd m); [apply Hk | constructor].
Qed.

End Output.

(** ** The line of a shape *)

Section ShapeLine.

Variable slide : Slide.
Variable shape : Shape.

Lemma mark_title_extends (info : pystr) :
  exists s, mark_title slide shape info = info ++ s.
Proof.
  unfold mark_title.
  destruct (shapes slide) as [sh|e]; simpl; [|exists []; now rewrite app_nil_r].
  destruct (getattr (title sh) None) as [t|e]; simpl;
    [|exists []; now rewrite app_nil_r].
  destruct (shape_eq shape t); [now exists (lit " [TITLE]")|].
  exists []; now rewrite app_nil_r.
Qed.

(** Lines 43-45 when the comparison succeeds *)
Lemma mark_title_hit (sh : Shapes) (t : Shape) (info : pystr) :
  shapes slide = Got sh -> title sh = Got (Some t) ->
  shape_eq shape (Some t) = true ->
  mark_title slide shape info = info ++ lit " [TITLE]".
Proof.
  intros Hs Ht He; unfold mark_title.
  rewrite Hs; cbn [abind]; rewrite Ht; cbn [getattr abind try_except].
  now rewrite He.
Qed.

Lemma mark_placeholder_extends (info r : pystr) :
  mark_placeholder shape info = Got r -> exists s, r = info ++ s.
Proof.
  unfold mark_placeholder; intros H.
  apply abind_got in H as [p [_ H]]; injection H as <-.
  destruct p; [|exists []; now rewrite app_nil_r].
  destruct (placeholder_format shape) as [pf|e]; simpl;
    [|exists []; now rewrite app_nil_r].
  destruct (idx pf) as [i|e]; simpl; [eauto|].
  exists []; now rewrite app_nil_r.
Qed.

Lemma add_text_extends (info r : pystr) :
  add_text shape info = Got r -> exists s, r = info ++ s.
Proof.
  unfold add_text; intros H.
  apply abind_got in H as [h [_ H]].
  destruct h.
  - apply abind_got in H as [t [_ H]]; injection H as <-; eauto.
  - injection H as <-; exists []; now rewrite app_nil_r.
Qed.

(** Lines 54-57 for a shape with readable text *)
Lemma add_text_hit (raw info : pystr) :
  has_text_frame shape = Got true -> text shape = Got raw ->
  add_text shape info
  = Got (info ++ lit " | text='" ++ snippet (normalize raw) ++ lit "'").
Proof. intros Hh Ht; unfold add_text; now rewrite Hh, Ht. Qed.

Lemma add_picture_extends (stype : MsoShapeType) (info r : pystr) :
  add_picture stype shape info = Got r -> exists s, r = info ++ s.
Proof.
  unfold add_picture; intros H.
  apply abind_got in H as [pic [_ H]]; injection H as <-.
  destruct pic; [|exists []; now rewrite app_nil_r].
  destruct (image shape) as [img|e]; simpl; [|now exists could_not_read].
  destruct (image_blob img) as [b|e]; simpl; [|now exists could_not_read].
  destruct (getattr (filename img) (Some (lit "embedded"))) as [f|e]; simpl;
    [|now exists could_not_read].
  destruct (ext img) as [x|e]; simpl; [eauto | now exists could_not_read].
Qed.

(** The parts of a shape line, in the order lines 41-65 append them. *)
Lemma shape_info_parts (si : nat) (line : pystr) :
  shape_info slide si shape = Got line ->
  exists stype typename marker placeholder txt picture,
    shape_type shape = Got stype
    /\ typename_of stype = Got typename
    /\ mark_title slide shape (lit "Shape " ++ str_of_nat si ++ lit ": " ++ typename)
       = (lit "Shape " ++ str_of_nat si ++ lit ": " ++ typename) ++ marker
    /\ add_text shape
         (((lit "Shape " ++ str_of_nat si ++ lit ": " ++ typename) ++ marker)
            ++ placeholder)
       = Got ((((lit "Shape " ++ str_of_nat si ++ lit ": " ++ typename) ++ marker)
                 ++ placeholder) ++ txt)
    /\ line = ((((lit "Shape " ++ str_of_nat si ++ lit ": " ++ typename) ++ marker)
                  ++ placeholder) ++ txt) ++ picture.
Proof.
  unfold shape_info; intros H.
  apply abind_got in H as [stype [Hst H]].
  apply abind_got in H as [typename [Hty H]].
  cbv zeta in H.
  destruct (mark_title_extends (lit "Shape " ++ str_of_nat si ++ lit ": " ++ typename))
    as [marker Hm].
  rewrite Hm in H.
  apply abind_got in H as [i1 [H1 H]].
  apply mark_placeholder_extends in H1 as [placeholder ->].
  apply abind_got in H as [i2 [H2 H]].
  pose proof H2 as H2'.
  apply add_text_extends in H2' as [txt ->].
  apply add_picture_extends in H as [picture ->].
  now exists stype, typename, marker, placeholder, txt, picture.
Qed.

Lemma shape_info_begins (si : nat) (line : pystr) :
  shape_info slide si shape = Got line -> begins "Shape " line.
Proof.
  intros H; apply shape_info_parts in H
    as (stype & typename & marker & placeholder & txt & picture & _ & _ & _ & _ & ->).
  unfold begins; rewrite <- !app_assoc; eauto.
Qed.

(** What one pass of the shape loop prints: the line of the shape, or
    nothing when deriving the line raised. *)
Lemma print_shape_eq (si : nat) :
  print_shape slide si shape
  = match shape_info slide si shape with
    | Got line => ([line], Got tt)
    | Raised e => ([], Raised e)
    end.
Proof. unfold print_shape; now destruct (shape_info slide si shape). Qed.

End ShapeLine.

(** ** Text snippets and notes: lengths *)

Lemma print_notes_lines (slide : Slide) (line : pystr) :
  In line (fst (print_notes slide)) ->
  exists texts, texts <> [] /\ line = lit "Notes: " ++ notes_join texts.
Proof.
  unfold print_notes.
  destruct (collect_notes slide) as [[|t texts]|e]; simpl; try tauto.
  intros [<-|[]]; now exists (t :: texts).
Qed.

(** C4: the text snippet in the line of a shape with text is its first 300
    characters, followed by "..." exactly when the text is longer than 300
    characters, so never more than 303 characters; the text after "Notes: "
    is never longer than 400 characters. *)
Theorem C4_snippet_and_notes_bounded :
  (forall slide si shape raw line,
      has_text_frame shape = Got true ->
      text shape = Got raw ->
      In line (fst (print_shape slide si shape)) ->
      exists before after,
        line = before ++ lit " | text='" ++ snippet (normalize raw) ++ lit "'" ++ after
        /\ length (snippet (normalize raw)) <= 303
        /\ (length (normalize raw) <= 300 ->
            snippet (normalize raw) = normalize raw)
        /\ (300 < length (normalize raw) ->
            snippet (normalize raw) = firstn 300 (normalize raw) ++ lit "..."))
  /\ (forall slide line,
         In line (fst (print_notes slide)) ->
         exists body, line = lit "Notes: " ++ body /\ length body <= 400).
Proof.
  split.
  - intros slide si shape raw line Hh Ht Hin.
    rewrite print_shape_eq in Hin.
    destruct (shape_info slide si shape) as [l|e] eqn:E; simpl in Hin; [|tauto].
    destruct Hin as [<-|[]].
    apply shape_info_parts in E
      as (stype & typename & marker & placeholder & txt & picture
          & _ & _ & _ & Htxt & ->).
    rewrite (add_text_hit shape raw _ Hh Ht) in Htxt.
    apply Got_inj, app_inv_head in Htxt; subst txt.
    exists (((lit "Shape " ++ str_of_nat si ++ lit ": " ++ typename) ++ marker)
              ++ placeholder), picture.
    split; [|split; [|split]].
    + now rewrite <- !app_assoc.
    + apply snippet_bound.
    + apply snippet_short.
    + intros H; apply (snippet_long _ H).
  - intros slide line Hin.
    apply print_notes_lines in Hin as [texts [_ ->]].
    exists (notes_join texts); split; [reflexivity | apply notes_join_bound].
Qed.

(** C4 on a text box holding 301 characters and on the notes of the sample
    slide. *)
Lemma C4_snippet_and_notes_bounded_witness :
  let shape := Sample.text_box 7 (Sample.ab300 ++ lit "c") in
  let slide := Sample.mk_slide None [shape] "Blank" [] [] in
  let line := nth 0 (fst (print_shape slide 1 shape)) [] in
  let note := nth 0 (fst (print_notes Sample.slide1)) [] in
  (In line (fst (print_shape slide 1 shape))
   /\ exists before after,
       line = before ++ lit " | text='"
                ++ snippet (normalize (Sample.ab300 ++ lit "c")) ++ lit "'" ++ after
       /\ length (snippet (normalize (Sample.ab300 ++ lit "c"))) <= 303
       /\ (length (normalize (Sample.ab300 ++ lit "c")) <= 300 ->
           snippet (normalize (Sample.ab300 ++ lit "c"))
           = normalize (Sample.ab300 ++ lit "c"))
       /\ (300 < length (normalize (Sample.ab300 ++ lit "c")) ->
           snippet (normalize (Sample.ab300 ++ lit "c"))
           = firstn 300 (normalize (Sample.ab300 ++ lit "c")) ++ lit "..."))
  /\ (In note (fst (print_notes Sample.slide1))
      /\ exists body, note = lit "Notes: " ++ body /\ length body <= 400).
Proof.
  intros shape slide line note.
  assert (Hline : In line (fst (print_shape slide 1 shape)))
    by (vm_compute; left; reflexivity).
  assert (Hnote : In note (fst (print_notes Sample.slide1)))
    by (vm_compute; left; reflexivity).
  split; split; [exact Hline | | exact Hnote |].
  - exact (proj1 C4_snippet_and_notes_bounded slide 1 shape
             (Sample.ab300 ++ lit "c") line eq_refl eq_refl Hline).
  - exact (proj2 C4_snippet_and_notes_bounded Sample.slide1 note Hnote).
Defined.

(** ** The title marker *)

(** C5: when [slide.shapes.title] is a shape and the shape at hand equals
    it, the line printed for the shape has " [TITLE]" right after the shape
    type. *)
Theorem C5_title_shape_is_marked (slide : Slide) (sh : Shapes) (t : Shape)
    (si : nat) (shape : Shape) (line : pystr) :
  shapes slide = Got sh ->
  title sh = Got (Some t) ->
  shape_eq shape (Some t) = true ->
  In line (fst (print_shape slide si shape)) ->
  exists typename rest,
    (stype <- shape_type shape ;; typename_of stype) = Got typename
    /\ line = lit "Shape " ++ str_of_nat si ++ lit ": " ++ typename
                ++ lit " [TITLE]" ++ rest.
Proof.
  intros Hs Ht He Hin.
  rewrite print_shape_eq in Hin.
  destruct (shape_info slide si shape) as [l|e] eqn:E; simpl in Hin; [|tauto].
  destruct Hin as [<-|[]].
  apply shape_info_parts in E
    as (stype & typename & marker & placeholder & txt & picture
        & Hst & Hty & Hm & _ & ->).
  rewrite (mark_title_hit slide shape sh t _ Hs Ht He) in Hm.
  apply app_inv_head in Hm; subst marker.
  exists typename, (placeholder ++ txt ++ picture); split.
  - now rewrite Hst.
  - now rewrite <- !app_assoc.
Qed.

(** C5 on the heading of the sample slide. *)
Lemma C5_title_shape_is_marked_witness :
  let line := nth 0 (fst (print_shape Sample.slide1 1 Sample.heading)) [] in
  In line (fst (print_shape Sample.slide1 1 Sample.heading))
  /\ exists typename rest,
      (stype <- shape_type Sample.heading ;; typename_of stype) = Got typename
      /\ line = lit "Shape " ++ str_of_nat 1 ++ lit ": " ++ typename
                  ++ lit " [TITLE]" ++ rest.
Proof.
  intros line.
  assert (Hline : In line (fst (print_shape Sample.slide1 1 Sample.heading)))
    by (vm_compute; left; reflexivity).
  split; [exact Hline|].
  exact (C5_title_shape_is_marked Sample.slide1
           {| shape_list := [Sample.heading; Sample.placeholder 3 1 (lit "Subtitle");
                             Sample.picture 4];
              title := Got (Some Sample.heading) |}
           Sample.heading 1 Sample.heading line eq_refl eq_refl eq_refl Hline).
Defined.

(** ** What each part of a slide's pass prints *)

Section SlidePass.

Variable slide : Slide.

Lemma print_title_eq :
  print_title slide
  = match title_text slide with
    | Some (c :: t) => ([lit "Title: " ++ c :: t], Got tt)
    | _ => ([], Got tt)
    end.
Proof. unfold print_title; now destruct (title_text slide) as [[|c t]|]. Qed.

Lemma print_title_lines : Forall (begins "Title: ") (fst (print_title slide)).
Proof.
  rewrite print_title_eq.
  destruct (title_text slide) as [[|c t]|]; repeat constructor.
  now exists (c :: t).
Qed.

Lemma print_title_returns : snd (print_title slide) = Got tt.
Proof.
  rewrite print_title_eq; now destruct (title_text slide) as [[|c t]|].
Qed.

Lemma print_layout_lines : Forall (begins "Layout: ") (fst (print_layout slide)).
Proof.
  unfold print_layout.
  destruct (getattr (slide_layout slide) None) as [[l|]|e]; simpl;
    try constructor.
  destruct (getattr (layout_name l) None) as [[[|c n]|]|e]; simpl;
    repeat constructor.
  now exists (c :: n).
Qed.

Lemma print_shapes_lines (si : nat) (l : list Shape) :
  Forall (begins "Shape ") (fst (print_shapes slide si l)).
Proof.
  revert si; induction l as [|shape rest IH]; intros si; simpl; [constructor|].
  apply Forall_bind; [|intros _; apply IH].
  rewrite print_shape_eq.
  destruct (shape_info slide si shape) as [line|e] eqn:E; repeat constructor.
  exact (shape_info_begins slide shape si line E).
Qed.

(** A completed shape loop printed one line per shape, in order. *)
Lemma print_shapes_completes (si : nat) (l : list Shape) (lines : list pystr) :
  print_shapes slide si l = (lines, Got tt) ->
  Forall2 (fun p line => shape_info slide (fst p) (snd p) = Got line)
          (enumerate si l) lines.
Proof.
  revert si lines; induction l as [|shape rest IH]; intros si lines; simpl.
  - intros H; injection H as <-; constructor.
  - intros H; apply bind_completes in H as (o1 & [] & o2 & H1 & H2 & ->).
    rewrite print_shape_eq in H1.
    destruct (shape_info slide si shape) as [line|e] eqn:E; [|discriminate].
    injection H1 as <-; simpl.
    constructor; [exact E | now apply IH].
Qed.

Lemma print_notes_begin : Forall (begins "Notes: ") (fst (print_notes slide)).
Proof.
  apply Forall_forall; intros line Hin.
  apply print_notes_lines in Hin as [texts [_ ->]]; now exists (notes_join texts).
Qed.

Lemma print_notes_returns : snd (print_notes slide) = Got tt.
Proof.
  unfold print_notes.
  now destruct (collect_notes slide) as [[|t texts]|e].
Qed.

Lemma print_items_eq (imgs : list pystr) :
  print_items imgs = (map (fun it => lit " -" ++ lit " " ++ it) imgs, Got tt).
Proof.
  induction imgs as [|it rest IH]; simpl; [reflexivity|].
  now rewrite IH.
Qed.

Lemma print_images_eq :
  print_images slide
  = match (p <- part slide ;; rp <- getattr (related_parts p) [] ;; image_items rp) with
    | Got [] => ([], Got tt)
    | Got imgs =>
        (lit "Images in slide:" :: map (fun it => lit " -" ++ lit " " ++ it) imgs,
         Got tt)
    | Raised e => ([], Raised e)
    end.
Proof.
  unfold print_images.
  destruct (abind (part slide) _) as [[|it imgs]|e]; simpl; try reflexivity.
  now rewrite print_items_eq.
Qed.

Lemma print_images_lines :
  Forall (fun l => begins "Images in slide:" l \/ begins " -" l)
         (fst (print_images slide)).
Proof.
  rewrite print_images_eq.
  destruct (abind (part slide) _) as [[|it imgs]|e]; simpl; try constructor.
  - left; now exists [].
  - apply Forall_forall; intros l Hin.
    change (In l (map (fun it => lit " -" ++ lit " " ++ it) (it :: imgs))) in Hin.
    apply in_map_iff in Hin as [x [<- _]]; right; now exists (lit " " ++ x).
Qed.

(** The make-up of a slide's section.  The pass stops early when a read
    outside a handler raises: then the lines after the point of failure are
    missing. *)
Lemma print_slide_structure (i : nat) :
  exists shape_lines tail,
    fst (print_slide i slide)
    = slide_header i :: fst (print_title slide) ++ fst (print_layout slide)
        ++ shape_lines ++ tail
    /\ (shape_lines = []
        \/ exists sh, shapes slide = Got sh
                      /\ shape_lines = fst (print_shapes slide 1 (shape_list sh)))
    /\ (tail = []
        \/ exists blank, tail = fst (print_notes slide) ++ fst (print_images slide)
                                 ++ blank
                         /\ (blank = [] \/ blank = [[]])).
Proof.
  unfold print_slide; rewrite fst_bind; unfold print at 1; cbn [fst snd app].
  rewrite fst_bind, print_title_returns, fst_bind.
  destruct (snd (print_layout slide)).
  2:{ exists [], []; repeat split; auto. }
  rewrite fst_bind.
  assert (Hs : fst (bind (eval (shapes slide))
                         (fun sh => print_shapes slide 1 (shape_list sh))) = []
               \/ exists sh, shapes slide = Got sh
                    /\ fst (bind (eval (shapes slide))
                              (fun sh => print_shapes slide 1 (shape_list sh)))
                       = fst (print_shapes slide 1 (shape_list sh))).
  { rewrite fst_bind; unfold eval; cbn [fst snd app].
    destruct (shapes slide) as [sh|e]; [right; now exists sh | now left]. }
  destruct (snd (bind (eval (shapes slide)) _)).
  2:{ eexists _, []; split; [reflexivity|]; split; auto. }
  rewrite (fst_bind (print_notes slide)), print_notes_returns.
  rewrite (fst_bind (print_images slide)).
  eexists _, _; split; [reflexivity|]; split; [exact Hs|right].
  destruct (snd (print_images slide)); [exists [[]] | exists []]; auto.
Qed.

(** A slide's section starts with its header and the title line, if any;
    every later line comes from one of the later parts. *)
Lemma print_slide_head (i : nat) :
  exists rest,
    fst (print_slide i slide) = slide_header i :: fst (print_title slide) ++ rest
    /\ forall line, In line rest ->
         In line (fst (print_layout slide))
         \/ (exists sh, shapes slide = Got sh
                        /\ In line (fst (print_shapes slide 1 (shape_list sh))))
         \/ In line (fst (print_notes slide))
         \/ In line (fst (print_images slide))
         \/ line = [].
Proof.
  destruct (print_slide_structure i) as (shape_lines & tail & E & Hs & Ht).
  eexists; split; [exact E|].
  intros line H.
  apply in_app_or in H as [H|H]; [now left|right].
  apply in_app_or in H as [H|H].
  - destruct Hs as [->|[sh [Hsh ->]]]; [destruct H|].
    left; now exists sh.
  - right.
    destruct Ht as [->|[blank [-> Hb]]]; [destruct H|].
    apply in_app_or in H as [H|H]; [now left|right].
    apply in_app_or in H as [H|H]; [now left|right].
    destruct Hb as [-> | ->]; [destruct H|].
    destruct H as [<-|[]]; reflexivity.
Qed.

(** Where a line of a slide's section comes from. *)
Lemma print_slide_lines (i : nat) (line : pystr) :
  In line (fst (print_slide i slide)) ->
  line = slide_header i
  \/ In line (fst (print_title slide))
  \/ In line (fst (print_layout slide))
  \/ (exists sh, shapes slide = Got sh
                 /\ In line (fst (print_shapes slide 1 (shape_list sh))))
  \/ In line (fst (print_notes slide))
  \/ In line (fst (print_images slide))
  \/ line = [].
Proof.
  destruct (print_slide_head i) as [rest [-> Hrest]].
  intros [<-|H]; [now left|right].
  apply in_app_or in H as [H|H]; [now left|right; auto].
Qed.

(** What the later parts print, by how the lines begin. *)
Lemma later_lines (line : pystr) :
  In line (fst (print_layout slide))
  \/ (exists sh, shapes slide = Got sh
                 /\ In line (fst (print_shapes slide 1 (shape_list sh))))
  \/ In line (fst (print_notes slide))
  \/ In line (fst (print_images slide))
  \/ line = [] ->
  begins "Layout: " line \/ begins "Shape " line \/ begins "Notes: " line
  \/ begins "Images in slide:" line \/ begins " -" line \/ line = [].
Proof.
  intros [H|[[sh [_ H]]|[H|[H|H]]]].
  - left; revert line H; apply Forall_forall, print_layout_lines.
  - right; left; revert line H; apply Forall_forall, print_shapes_lines.
  - right; right; left; revert line H; apply Forall_forall, print_notes_begin.
  - pose proof print_images_lines as Hi.
    rewrite Forall_forall in Hi; destruct (Hi line H); auto 6.
  - auto 6.
Qed.

(** A completed pass printed all its parts. *)
Lemma print_slide_completes (i : nat) (lines : list pystr) :
  print_slide i slide = (lines, Got tt) ->
  exists sh shape_lines,
    shapes slide = Got sh
    /\ print_shapes slide 1 (shape_list sh) = (shape_lines, Got tt)
    /\ lines = slide_header i :: fst (print_title slide)
                 ++ fst (print_layout slide) ++ shape_lines
                 ++ fst (print_notes slide) ++ fst (print_images slide) ++ [[]].
Proof.
  unfold print_slide; intros H.
  apply bind_completes in H as (o1 & [] & r1 & H1 & H & ->).
  injection H1 as <-.
  apply bind_completes in H as (o2 & [] & r2 & H2 & H & ->).
  apply bind_completes in H as (o3 & [] & r3 & H3 & H & ->).
  apply bind_completes in H as (o4 & [] & r4 & H4 & H & ->).
  apply bind_completes in H as (o5 & [] & r5 & H5 & H & ->).
  apply bind_completes in H as (o6 & [] & r6 & H6 & H & ->).
  injection H as <-.
  apply bind_completes in H4 as (o40 & sh & o41 & Hs & H4 & ->).
  unfold eval in Hs; injection Hs as <- Hs.
  exists sh, o41; rewrite H2, H3, H5, H6; simpl; auto.
Qed.

End SlidePass.

(** ** The title line *)

Section TitleLine.

Variable slide : Slide.
Variable sh : Shapes.
Hypothesis Hshapes : shapes slide = Got sh.

Lemma title_text_absent : title sh = Got None -> title_text slide = None.
Proof. intros Ht; unfold title_text; now rewrite Hshapes; cbn [abind]; rewrite Ht. Qed.

Lemma title_text_blank (ts : Shape) (raw : pystr) :
  title sh = Got (Some ts) -> text ts = Got raw ->
  forallb isspace raw = true ->
  title_text slide = None \/ title_text slide = Some [].
Proof.
  intros Ht Hx Hb; unfold title_text, normalize.
  rewrite Hshapes; cbn [abind]; rewrite Ht; cbn [abind].
  destruct (getattr (has_text_frame ts) false) as [[]|e]; cbn [abind try_except]; auto.
  rewrite Hx; cbn [abind try_except]; rewrite (strip_blank raw Hb); auto.
Qed.

Lemma title_text_present (ts : Shape) (raw : pystr) :
  title sh = Got (Some ts) -> has_text_frame ts = Got true ->
  text ts = Got raw ->
  title_text slide = Some (normalize raw).
Proof.
  intros Ht Hh Hx; unfold title_text.
  rewrite Hshapes; cbn [abind]; rewrite Ht; cbn [abind].
  now rewrite Hh; cbn [getattr abind]; rewrite Hx.
Qed.

(** Only the title part prints lines that start with "Title:". *)
Lemma no_other_title_line (i : nat) :
  fst (print_title slide) = [] ->
  Forall (fun l => is_title_line l = false) (fst (print_slide i slide)).
Proof.
  intros Hnone; apply Forall_forall; intros line Hin.
  destruct (print_slide_head slide i) as [rest [E Hrest]].
  rewrite E, Hnone in Hin; destruct Hin as [<-|Hin]; [reflexivity|].
  apply Hrest, later_lines in Hin; line_kind.
Qed.

End TitleLine.

(** The text shown for a title: the raw text without the whitespace at its
    ends and with every line feed turned into a space. *)
Lemma normalize_spec (raw : pystr) :
  (exists pre post,
      raw = pre ++ strip raw ++ post
      /\ forallb isspace pre = true /\ forallb isspace post = true)
  /\ length (normalize raw) = length (strip raw)
  /\ ~ In LF (normalize raw)
  /\ (forall c r, normalize raw = c :: r -> isspace c = false)
  /\ (forall r c, normalize raw = r ++ [c] -> isspace c = false).
Proof.
  destruct (strip_spec raw) as (pre & post & E & Hpre & Hpost & Hhd & Hlast).
  unfold normalize; repeat split.
  - now exists pre, post.
  - apply replace_length.
  - apply replace_removes; discriminate.
  - intros c r H; unfold replace in H.
    destruct (strip raw) as [|c0 r0]; [discriminate|].
    injection H as <- _.
    specialize (Hhd c0 r0 eq_refl).
    now rewrite (replace_LF_keeps c0 Hhd).
  - intros r c H; unfold replace in H.
    apply map_eq_app in H as (l1 & l2 & E' & _ & H2).
    destruct l2 as [|c0 [|]]; try discriminate.
    injection H2 as <-.
    specialize (Hlast l1 c0 E').
    now rewrite (replace_LF_keeps c0 Hlast).
Qed.

(** C6 (the line feed is what is replaced): a slide without a title shape,
    or whose title shape holds only whitespace (or nothing), gets no line
    starting with "Title:"; when the title shape carries text that is not
    blank, the line after the slide header is "Title: " followed by that
    text without the whitespace at its ends, with each line feed replaced by
    a space and every other character left as it is and where it is, and it
    is the only such line. *)
Theorem C6_title_line (i : nat) (slide : Slide) (sh : Shapes) :
  shapes slide = Got sh ->
  (title sh = Got None ->
   Forall (fun l => is_title_line l = false) (fst (print_slide i slide)))
  /\ (forall ts raw,
         title sh = Got (Some ts) -> text ts = Got raw ->
         forallb isspace raw = true ->
         Forall (fun l => is_title_line l = false) (fst (print_slide i slide)))
  /\ (forall ts raw,
         title sh = Got (Some ts) -> has_text_frame ts = Got true ->
         text ts = Got raw -> strip raw <> [] ->
         exists rest,
           fst (print_slide i slide)
           = slide_header i :: (lit "Title: " ++ replace LF SPACE (strip raw)) :: rest
           /\ Forall (fun l => is_title_line l = false) rest
           /\ (exists pre post,
                  raw = pre ++ strip raw ++ post
                  /\ forallb isspace pre = true /\ forallb isspace post = true)
           /\ ~ In LF (replace LF SPACE (strip raw))
           /\ (forall c r, replace LF SPACE (strip raw) = c :: r -> isspace c = false)
           /\ (forall r c, replace LF SPACE (strip raw) = r ++ [c] -> isspace c = false)
           /\ length (replace LF SPACE (strip raw)) = length (strip raw)
           /\ (forall n c,
                  nth_error (strip raw) n = Some c ->
                  nth_error (replace LF SPACE (strip raw)) n
                  = Some (if N.eqb c LF then SPACE else c))).
Proof.
  intros Hs; split; [|split].
  - intros Ht; apply (no_other_title_line slide).
    now rewrite print_title_eq, (title_text_absent slide sh Hs Ht).
  - intros ts raw Ht Hx Hb; apply (no_other_title_line slide).
    rewrite print_title_eq.
    now destruct (title_text_blank slide sh Hs ts raw Ht Hx Hb) as [-> | ->].
  - intros ts raw Ht Hh Hx Hne.
    destruct (print_slide_head slide i) as [rest [E Hrest]].
    rewrite print_title_eq, (title_text_present slide sh Hs ts raw Ht Hh Hx) in E.
    destruct (normalize_spec raw) as (Hcut & Hlen & Hlf & Hhd & Hlast).
    assert (Hnth : forall n c,
               nth_error (strip raw) n = Some c ->
               nth_error (normalize raw) n = Some (if N.eqb c LF then SPACE else c))
      by (intros n c Hn; unfold normalize, replace;
          exact (map_nth_error (fun x => if N.eqb x LF then SPACE else x)
                   n (strip raw) Hn)).
    unfold normalize in *.
    destruct (replace LF SPACE (strip raw)) as [|c t] eqn:En.
    + destruct (strip raw); [now destruct Hne | discriminate].
    + exists rest.
      split; [exact E|].
      split; [|auto 10].
      apply Forall_forall; intros line Hin.
      apply Hrest, (later_lines slide) in Hin; line_kind.
Qed.

(** C6 as stated fails on a title with a line break inside a paragraph,
    which [shape.text] gives as a vertical tab: the title line holds the
    vertical tab as it was, where the claim has a space. *)
Lemma C6_counterexample_line_break_kept :
  let line := lit "Title: Line one" ++ [VT] ++ lit "line two" in
  fst (print_slide 1 Gallery.two_lines)
  = [slide_header 1; line; lit "Layout: Title Only";
     lit "Shape 1: PLACEHOLDER (14) [TITLE] (placeholder idx=0) | text='Line one"
       ++ [VT] ++ lit "line two'";
     []]
  /\ existsb is_line_break line = true
  /\ line <> lit "Title: Line one line two".
Proof.
  vm_compute; split; [reflexivity|]; split; [reflexivity|discriminate].
Qed.

(** C6 on the first sample slide, whose heading reads "  Welcome", a line
    feed, "to DISCO "; on the second, which has no title shape; and on a
    title that holds a vertical tab. *)
Lemma C6_title_line_witness :
  (shapes Sample.slide1
   = Got {| shape_list := [Sample.heading; Sample.placeholder 3 1 (lit "Subtitle");
                           Sample.picture 4];
            title := Got (Some Sample.heading) |}
   /\ exists rest,
       fst (print_slide 1 Sample.slide1)
       = slide_header 1 :: lit "Title: Welcome to DISCO" :: rest)
  /\ (shapes Sample.slide2
      = Got {| shape_list := [Sample.text_box 2 (lit "Agenda");
                              Sample.linked_picture 3];
               title := Got None |}
      /\ Forall (fun l => is_title_line l = false)
                (fst (print_slide 2 Sample.slide2)))
  /\ nth_error (replace LF SPACE (strip Gallery.two_lines_text)) 8 = Some VT.
Proof.
  split; [|split]; [split; [reflexivity|] | split; [reflexivity|] |].
  - destruct (proj2 (proj2 (C6_title_line 1 Sample.slide1 _ eq_refl))
                Sample.heading Sample.heading_text eq_refl eq_refl eq_refl)
      as [rest [E _]].
    + vm_compute; discriminate.
    + exists rest; exact E.
  - exact (proj1 (C6_title_line 2 Sample.slide2 _ eq_refl) eq_refl).
  - destruct (proj2 (proj2 (C6_title_line 1 Gallery.two_lines _ eq_refl))
                (Sample.placeholder 2 0 Gallery.two_lines_text)
                Gallery.two_lines_text eq_refl eq_refl eq_refl)
      as (rest & _ & _ & _ & _ & _ & _ & _ & Hnth).
    + vm_compute; discriminate.
    + exact (Hnth 8 VT eq_refl).
Defined.

(** ** Notes *)

(** C9: when the note texts of a slide, joined with " | ", run to more than
    400 characters, the notes part prints the one line "Notes: " followed by
    exactly the first 400 characters of the joined text and nothing after
    them; the joined text counts 3 characters for each separator; and no
    other line of the slide's section starts with "Notes:". *)
Theorem C9_notes_cut_at_400 (slide : Slide) (texts : list pystr) :
  collect_notes slide = Got texts ->
  400 < length (join (lit " | ") texts) ->
  fst (print_notes slide) = [lit "Notes: " ++ firstn 400 (join (lit " | ") texts)]
  /\ length (firstn 400 (join (lit " | ") texts)) = 400
  /\ length (join (lit " | ") texts)
     = list_sum (map (@length pychar) texts) + 3 * (length texts - 1)
  /\ forall i line,
       In line (fst (print_slide i slide)) -> is_notes_line line = true ->
       line = lit "Notes: " ++ firstn 400 (join (lit " | ") texts).
Proof.
  intros Hc Hlong.
  assert (E : fst (print_notes slide)
              = [lit "Notes: " ++ firstn 400 (join (lit " | ") texts)]).
  { unfold print_notes; rewrite Hc.
    destruct texts as [|t ts]; [simpl in Hlong; lia | reflexivity]. }
  split; [exact E|]; split; [|split].
  - apply firstn_length_le; lia.
  - apply join_length.
  - intros i line Hin Hk.
    apply print_slide_lines in Hin as [->|[Hin|Hin]]; [discriminate| |].
    + pose proof (print_title_lines slide) as Ht.
      rewrite Forall_forall in Ht; apply Ht in Hin.
      destruct Hin as [rest ->]; discriminate.
    + rewrite E in Hin.
      destruct Hin as [Hin|[[sh [_ Hin]]|[[<-|[]]|Hin]]]; [| |reflexivity|].
      * destruct (proj1 (Forall_forall _ _) (print_layout_lines slide) line Hin)
          as [rest ->]; discriminate.
      * destruct (proj1 (Forall_forall _ _) (print_shapes_lines slide 1 _) line Hin)
          as [rest ->]; discriminate.
      * assert (L : In line (fst (print_images slide)) \/ line = []) by exact Hin.
        destruct L as [L| ->]; [|discriminate].
        pose proof (print_images_lines slide) as Hi.
        rewrite Forall_forall in Hi.
        destruct (Hi line L) as [[rest ->]|[rest ->]]; discriminate.
Qed.

(** C9 on a slide with two notes of 300 characters each: 603 characters
    once joined. *)
Lemma C9_notes_cut_at_400_witness :
  let texts := [Sample.ab300; Sample.ab300] in
  collect_notes Sample.wordy = Got texts
  /\ 400 < length (join (lit " | ") texts)
  /\ fst (print_notes Sample.wordy)
     = [lit "Notes: " ++ firstn 400 (join (lit " | ") texts)].
Proof.
  intros texts.
  assert (H1 : collect_notes Sample.wordy = Got texts) by (vm_compute; reflexivity).
  assert (H2 : 400 < length (join (lit " | ") texts)) by (vm_compute; lia).
  split; [exact H1|]; split; [exact H2|].
  exact (proj1 (C9_notes_cut_at_400 Sample.wordy texts H1 H2)).
Defined.

(** ** Related images *)

Lemma image_items_empty (rp : list RelatedPart) (imgs : list pystr) :
  existsb is_image_part rp = false -> image_items rp = Got imgs -> imgs = [].
Proof.
  revert imgs; induction rp as [|rel rest IH]; intros imgs Hn H;
    cbn [image_items] in H.
  - now injection H as <-.
  - simpl in Hn; apply orb_false_iff in Hn as [Hrel Hrest].
    apply abind_got in H as [ct [Hct H]].
    unfold is_image_part in Hrel; rewrite Hct in Hrel; rewrite Hrel in H.
    cbn [abind] in H.
    apply abind_got in H as [more [Hmore H]].
    injection H as <-; simpl; now apply IH.
Qed.

Lemma print_images_none (slide : Slide) :
  existsb is_image_part (linked_parts slide) = false ->
  fst (print_images slide) = [].
Proof.
  intros Hn; rewrite print_images_eq; unfold linked_parts in Hn.
  destruct (part slide) as [p|e]; cbn [abind] in *; [|reflexivity].
  destruct (getattr (related_parts p) []) as [rp|e]; cbn [abind]; [|reflexivity].
  destruct (image_items rp) as [imgs|e] eqn:E; [|reflexivity].
  now rewrite (image_items_empty rp imgs Hn E).
Qed.

Lemma print_images_header_first (slide : Slide) (line : pystr) :
  In line (fst (print_images slide)) ->
  exists items, fst (print_images slide) = lit "Images in slide:" :: items.
Proof.
  rewrite print_images_eq.
  destruct (abind (part slide) _) as [[|it imgs]|e]; simpl; try tauto.
  intros _; eauto.
Qed.

(** A header or item line in a slide's section was printed by the images
    part, and then the section holds all that part printed. *)
Lemma images_lines_in_section (slide : Slide) (i : nat) (line : pystr) :
  In line (fst (print_slide i slide)) ->
  is_images_header line = true \/ is_item_line line = true ->
  In line (fst (print_images slide))
  /\ forall l, In l (fst (print_images slide)) -> In l (fst (print_slide i slide)).
Proof.
  intros Hin Hk.
  destruct (print_slide_structure slide i) as (shape_lines & tail & E & Hs & Ht).
  rewrite E in *.
  destruct Hin as [<-|Hin]; [destruct Hk; discriminate|].
  apply in_app_or in Hin as [Hin|Hin].
  { destruct (proj1 (Forall_forall _ _) (print_title_lines slide) line Hin)
      as [rest ->]; destruct Hk; discriminate. }
  apply in_app_or in Hin as [Hin|Hin].
  { destruct (proj1 (Forall_forall _ _) (print_layout_lines slide) line Hin)
      as [rest ->]; destruct Hk; discriminate. }
  apply in_app_or in Hin as [Hin|Hin].
  { destruct Hs as [->|[sh [_ ->]]]; [destruct Hin|].
    destruct (proj1 (Forall_forall _ _) (print_shapes_lines slide 1 _) line Hin)
      as [rest ->]; destruct Hk; discriminate. }
  destruct Ht as [->|[blank [-> Hb]]]; [destruct Hin|].
  apply in_app_or in Hin as [Hin|Hin].
  { destruct (proj1 (Forall_forall _ _) (print_notes_begin slide) line Hin)
      as [rest ->]; destruct Hk; discriminate. }
  apply in_app_or in Hin as [Hin|Hin].
  - split; [exact Hin|].
    intros l Hl; right.
    do 4 (apply in_or_app; right).
    apply in_or_app; now left.
  - destruct Hb as [-> | ->]; [destruct Hin|].
    destruct Hin as [<-|[]]; destruct Hk; discriminate.
Qed.

(** C10: a slide none of whose related parts has a content type starting
    with "image/" gets neither the "Images in slide:" header nor an item
    line; conversely a header or an item line in a slide's section means
    that such a part exists, and the header is in the section too. *)
Theorem C10_images_header_only_with_images (i : nat) (slide : Slide) :
  (existsb is_image_part (linked_parts slide) = false ->
   Forall (fun l => is_images_header l = false /\ is_item_line l = false)
          (fst (print_slide i slide)))
  /\ (forall line,
         In line (fst (print_slide i slide)) ->
         is_images_header line = true \/ is_item_line line = true ->
         existsb is_image_part (linked_parts slide) = true
         /\ In (lit "Images in slide:") (fst (print_slide i slide))).
Proof.
  split.
  - intros Hn; apply Forall_forall; intros line Hin.
    destruct (is_images_header line) eqn:Eh;
      [|destruct (is_item_line line) eqn:Ei; [|now split]].
    + destruct (images_lines_in_section slide i line Hin) as [Himg _]; [now left|].
      rewrite (print_images_none slide Hn) in Himg; destruct Himg.
    + destruct (images_lines_in_section slide i line Hin) as [Himg _]; [now right|].
      rewrite (print_images_none slide Hn) in Himg; destruct Himg.
  - intros line Hin Hk.
    destruct (images_lines_in_section slide i line Hin Hk) as [Himg Hall].
    split.
    + destruct (existsb is_image_part (linked_parts slide)) eqn:E; [reflexivity|].
      rewrite (print_images_none slide E) in Himg; destruct Himg.
    + destruct (print_images_header_first slide line Himg) as [items Ei].
      apply Hall; rewrite Ei; now left.
Qed.

(** C10 on the second sample slide, which has no image part, and on the
    first, which has one. *)
Lemma C10_images_header_only_with_images_witness :
  (existsb is_image_part (linked_parts Sample.slide2) = false
   /\ Forall (fun l => is_images_header l = false /\ is_item_line l = false)
             (fst (print_slide 2 Sample.slide2)))
  /\ (In (lit "Images in slide:") (fst (print_slide 1 Sample.slide1))
      /\ existsb is_image_part (linked_parts Sample.slide1) = true).
Proof.
  split.
  - split; [reflexivity|].
    exact (proj1 (C10_images_header_only_with_images 2 Sample.slide2) eq_refl).
  - assert (H : In (lit "Images in slide:") (fst (print_slide 1 Sample.slide1)))
      by (vm_compute; do 7 right; left; reflexivity).
    split; [exact H|].
    exact (proj1 (proj2 (C10_images_header_only_with_images 1 Sample.slide1)
                    (lit "Images in slide:") H (or_introl eq_refl))).
Defined.

(** ** Runs that complete *)

Lemma typename_of_tolerated (stype : MsoShapeType) :
  tolerated (member_name stype) = true ->
  exists typename, typename_of stype = Got typename.
Proof.
  unfold typename_of.
  destruct (member_name stype) as [n|[]]; try discriminate; simpl; eauto.
Qed.

Lemma mark_placeholder_tolerated (shape : Shape) (info : pystr) :
  tolerated (is_placeholder shape) = true ->
  exists r, mark_placeholder shape info = Got r.
Proof.
  unfold mark_placeholder.
  destruct (is_placeholder shape) as [p|[]]; try discriminate;
    cbn [getattr abind]; eauto.
Qed.

Lemma add_text_readable (shape : Shape) (info : pystr) :
  match getattr (has_text_frame shape) false with
  | Got true => match text shape with Got _ => true | Raised _ => false end
  | Got false => true
  | Raised _ => false
  end = true ->
  exists r, add_text shape info = Got r.
Proof.
  unfold add_text.
  destruct (getattr (has_text_frame shape) false) as [[]|e]; try discriminate;
    cbn [abind]; [|eauto].
  destruct (text shape) as [t|e]; [|discriminate]; cbn [abind]; eauto.
Qed.

Lemma add_picture_readable (stype : MsoShapeType) (shape : Shape) (info : pystr) :
  is_PICTURE stype || tolerated (image shape) = true ->
  exists r, add_picture stype shape info = Got r.
Proof.
  unfold add_picture.
  destruct (is_PICTURE stype); cbn [orb abind]; [eauto|].
  destruct (image shape) as [img|[]]; try discriminate; cbn [hasattr abind]; eauto.
Qed.

Lemma readable_shape_line (slide : Slide) (si : nat) (shape : Shape) :
  readable_shape shape = true -> exists line, shape_info slide si shape = Got line.
Proof.
  unfold readable_shape, shape_info.
  destruct (shape_type shape) as [stype|e]; [|discriminate].
  intros H.
  apply andb_true_iff in H as [H Hpic].
  apply andb_true_iff in H as [H Htxt].
  apply andb_true_iff in H as [Hname Hph].
  cbn [abind].
  destruct (typename_of_tolerated stype Hname) as [typename ->]; cbn [abind]; cbv zeta.
  destruct (mark_placeholder_tolerated shape
              (mark_title slide shape
                 (lit "Shape " ++ str_of_nat si ++ lit ": " ++ typename)) Hph)
    as [i1 ->]; cbn [abind].
  destruct (add_text_readable shape i1 Htxt) as [i2 ->]; cbn [abind].
  exact (add_picture_readable stype shape i2 Hpic).
Qed.

(** Conversely a pass that yields a line made exactly those reads. *)
Lemma line_needs_readable_shape (slide : Slide) (si : nat) (shape : Shape)
    (line : pystr) :
  shape_info slide si shape = Got line -> readable_shape shape = true.
Proof.
  unfold shape_info, readable_shape; intros H.
  apply abind_got in H as [stype [-> H]].
  apply abind_got in H as [typename [Hty H]]; cbv zeta in H.
  apply abind_got in H as [i1 [H1 H]].
  apply abind_got in H as [i2 [H2 H]].
  assert (Hname : tolerated (member_name stype) = true).
  { unfold typename_of in Hty.
    destruct (member_name stype) as [n|[]]; try reflexivity; discriminate. }
  assert (Hph : tolerated (is_placeholder shape) = true).
  { unfold mark_placeholder in H1.
    destruct (is_placeholder shape) as [p|[]]; try reflexivity; discriminate. }
  assert (Htxt : match getattr (has_text_frame shape) false with
                 | Got true => match text shape with
                               | Got _ => true
                               | Raised _ => false
                               end
                 | Got false => true
                 | Raised _ => false
                 end = true).
  { unfold add_text in H2.
    destruct (getattr (has_text_frame shape) false) as [[]|e];
      try reflexivity; try discriminate.
    destruct (text shape); [reflexivity|discriminate]. }
  assert (Hpic : is_PICTURE stype || tolerated (image shape) = true).
  { unfold add_picture in H.
    destruct (is_PICTURE stype); [reflexivity|].
    destruct (image shape) as [img|[]]; try reflexivity; discriminate. }
  now rewrite Hname, Hph, Htxt, Hpic.
Qed.

Lemma readable_shapes_complete (slide : Slide) (si : nat) (l : list Shape) :
  forallb readable_shape l = true -> snd (print_shapes slide si l) = Got tt.
Proof.
  revert si; induction l as [|shape rest IH]; intros si H; [reflexivity|].
  simpl in H; apply andb_true_iff in H as [Hs Hr].
  cbn [print_shapes]; rewrite snd_bind, print_shape_eq.
  destruct (readable_shape_line slide si shape Hs) as [line ->]; cbn [snd].
  now apply IH.
Qed.

Lemma readable_parts_complete (rp : list RelatedPart) :
  forallb readable_part rp = true -> exists imgs, image_items rp = Got imgs.
Proof.
  induction rp as [|rel rest IH]; intros H; [now exists []|].
  simpl in H; apply andb_true_iff in H as [Hrel Hrest].
  destruct (IH Hrest) as [more Hmore].
  cbn [image_items]; unfold readable_part in Hrel.
  destruct (getattr (content_type rel) []) as [ct|e]; [|discriminate].
  cbn [abind].
  destruct (startswith ct (lit "image/")).
  - destruct (partname rel) as [pn|e]; [|discriminate].
    cbn [abind]; rewrite Hmore; cbn [abind]; eauto.
  - cbn [abind]; rewrite Hmore; cbn [abind]; eauto.
Qed.

Lemma readable_slide_completes (i : nat) (slide : Slide) :
  readable_slide slide = true -> snd (print_slide i slide) = Got tt.
Proof.
  unfold readable_slide; intros H.
  apply andb_true_iff in H as [H Hparts].
  apply andb_true_iff in H as [Hlayout Hshapes].
  unfold print_slide.
  rewrite snd_bind; cbn [print snd].
  rewrite snd_bind, print_title_returns.
  rewrite snd_bind.
  assert (Hl : snd (print_layout slide) = Got tt).
  { unfold print_layout.
    destruct (getattr (slide_layout slide) None) as [[l|]|e];
      try discriminate; try reflexivity.
    unfold eval; cbn [bind].
    destruct (layout_name l) as [[[|c n]|]|[]]; try discriminate; reflexivity. }
  rewrite Hl, snd_bind.
  assert (Hs : snd (bind (eval (shapes slide))
                         (fun sh => print_shapes slide 1 (shape_list sh))) = Got tt).
  { rewrite snd_bind; unfold eval; cbn [snd].
    destruct (shapes slide) as [sh|e]; [|discriminate].
    now apply readable_shapes_complete. }
  rewrite Hs, snd_bind, print_notes_returns, snd_bind.
  assert (Hi : snd (print_images slide) = Got tt).
  { rewrite print_images_eq.
    destruct (part slide) as [p|e]; cbn [abind] in *; [|discriminate].
    destruct (getattr (related_parts p) []) as [rp|e]; cbn [abind];
      [|discriminate].
    destruct (readable_parts_complete rp Hparts) as [[|it imgs] ->]; reflexivity. }
  now rewrite Hi.
Qed.

Lemma readable_slides_complete (i : nat) (l : list Slide) :
  forallb readable_slide l = true -> snd (print_slides i l) = Got tt.
Proof.
  revert i; induction l as [|slide rest IH]; intros i H; [reflexivity|].
  simpl in H; apply andb_true_iff in H as [Hs Hr].
  cbn [print_slides]; rewrite snd_bind, (readable_slide_completes i slide Hs).
  now apply IH.
Qed.

(** ** Sections and shape lines in document order *)

Lemma filter_none {A} (f : A -> bool) (l : list A) :
  Forall (fun x => f x = false) l -> filter f l = [].
Proof.
  induction 1 as [|x l Hx _ IH]; simpl; [reflexivity|now rewrite Hx].
Qed.

Lemma filter_all {A} (f : A -> bool) (l : list A) :
  Forall (fun x => f x = true) l -> filter f l = l.
Proof.
  induction 1 as [|x l Hx _ IH]; simpl; [reflexivity|now rewrite Hx, IH].
Qed.

Lemma slide_header_is_header (i : nat) : is_slide_header (slide_header i) = true.
Proof. apply startswith_app. Qed.

Lemma filter_plain (f : pystr -> bool) (l : list pystr) :
  (forall x, plain x -> f x = false) -> Forall plain l -> filter f l = [].
Proof.
  intros Hf H; apply filter_none; revert H; apply Forall_impl; exact Hf.
Qed.

Section Sections.

Variable slide : Slide.

Lemma title_plain : Forall plain (fst (print_title slide)).
Proof.
  generalize (print_title_lines slide); apply Forall_impl.
  intros l [rest ->]; now split.
Qed.

Lemma layout_plain : Forall plain (fst (print_layout slide)).
Proof.
  generalize (print_layout_lines slide); apply Forall_impl.
  intros l [rest ->]; now split.
Qed.

Lemma notes_plain : Forall plain (fst (print_notes slide)).
Proof.
  generalize (print_notes_begin slide); apply Forall_impl.
  intros l [rest ->]; now split.
Qed.

Lemma images_plain : Forall plain (fst (print_images slide)).
Proof.
  generalize (print_images_lines slide); apply Forall_impl.
  intros l [[rest ->]|[rest ->]]; now split.
Qed.

Lemma shapes_not_headers (si : nat) (l : list Shape) :
  Forall (fun x => is_slide_header x = false) (fst (print_shapes slide si l)).
Proof.
  generalize (print_shapes_lines slide si l); apply Forall_impl.
  now intros x [rest ->].
Qed.

Lemma shapes_are_shape_lines (si : nat) (l : list Shape) :
  Forall (fun x => is_slide_header x || is_shape_line x = true)
         (fst (print_shapes slide si l)).
Proof.
  generalize (print_shapes_lines slide si l); apply Forall_impl.
  now intros x [rest ->].
Qed.

(** Every section, complete or not, has its header and no other. *)
Lemma section_has_one_header (i : nat) :
  filter is_slide_header (fst (print_slide i slide)) = [slide_header i].
Proof.
  destruct (print_slide_structure slide i) as (shape_lines & tail & -> & Hs & Ht).
  cbn [filter]; rewrite slide_header_is_header; f_equal.
  rewrite !filter_app.
  rewrite (filter_plain _ _ (fun x H => proj1 H) title_plain).
  rewrite (filter_plain _ _ (fun x H => proj1 H) layout_plain).
  assert (E1 : filter is_slide_header shape_lines = []).
  { destruct Hs as [->|[sh [_ ->]]]; [reflexivity|].
    apply filter_none, shapes_not_headers. }
  assert (E2 : filter is_slide_header tail = []).
  { destruct Ht as [->|[blank [-> Hb]]]; [reflexivity|].
    rewrite !filter_app.
    rewrite (filter_plain _ _ (fun x H => proj1 H) notes_plain).
    rewrite (filter_plain _ _ (fun x H => proj1 H) images_plain).
    now destruct Hb as [-> | ->]. }
  now rewrite E1, E2.
Qed.

Lemma shows_shapes (si : nat) (l : list Shape) (lines : list pystr) :
  Forall2 (fun p line => shape_info slide (fst p) (snd p) = Got line)
          (enumerate si l) lines ->
  Forall2 shows (map (fun p => Shape_of slide (fst p) (snd p)) (enumerate si l))
          lines.
Proof.
  induction 1 as [|p line ps ls Hp _ IH]; simpl; constructor; auto.
Qed.

(** The section and shape lines of a completed pass are the slide's
    entries, in order. *)
Lemma section_structure (i : nat) (lines : list pystr) :
  print_slide i slide = (lines, Got tt) ->
  Forall2 shows (slide_entries i slide) (structure lines).
Proof.
  intros H.
  apply print_slide_completes in H as (sh & shape_lines & Hsh & Hp & ->).
  unfold structure, slide_entries; rewrite Hsh.
  cbn [filter]; rewrite slide_header_is_header; cbn [orb].
  constructor; [reflexivity|].
  rewrite !filter_app.
  assert (Hplain : forall x, plain x -> is_slide_header x || is_shape_line x = false)
    by (intros x [-> ->]; reflexivity).
  rewrite (filter_plain _ _ Hplain title_plain).
  rewrite (filter_plain _ _ Hplain layout_plain).
  rewrite (filter_plain _ _ Hplain notes_plain).
  rewrite (filter_plain _ _ Hplain images_plain).
  cbn [filter app]; rewrite app_nil_r.
  pose proof (shapes_are_shape_lines 1 (shape_list sh)) as Hall.
  rewrite Hp in Hall; cbn [fst] in Hall.
  rewrite (filter_all _ _ Hall).
  apply shows_shapes, print_shapes_completes; exact Hp.
Qed.

End Sections.

Lemma print_slides_structure (i : nat) (l : list Slide) (lines : list pystr) :
  print_slides i l = (lines, Got tt) ->
  Forall2 shows (flat_map (fun p => slide_entries (fst p) (snd p)) (enumerate i l))
          (structure lines).
Proof.
  revert i lines; induction l as [|slide rest IH]; intros i lines H.
  - injection H as <-; constructor.
  - cbn [print_slides] in H.
    apply bind_completes in H as (o1 & [] & o2 & H1 & H2 & ->).
    cbn [enumerate flat_map fst snd].
    unfold structure; rewrite filter_app.
    apply Forall2_app; [now apply section_structure | now apply IH].
Qed.

(** In every run the section headers printed are those of the first [k]
    slides, and of all slides when the run completes. *)
Lemma headers_in_order (i : nat) (l : list Slide) :
  exists k,
    k <= length l
    /\ filter is_slide_header (fst (print_slides i l)) = map slide_header (seq i k)
    /\ (snd (print_slides i l) = Got tt -> k = length l).
Proof.
  revert i; induction l as [|slide rest IH]; intros i.
  - exists 0; repeat split; auto.
  - cbn [print_slides]; rewrite fst_bind, snd_bind, filter_app.
    rewrite section_has_one_header.
    destruct (snd (print_slide i slide)).
    + destruct (IH (S i)) as (k & Hk & E & Hall).
      exists (S k); simpl; rewrite E; repeat split; auto; lia.
    + exists 1; simpl; repeat split; [lia|discriminate].
Qed.

Lemma summarize_opened (open_pptx : pystr -> access Presentation)
    (path : pystr) (prs : Presentation) :
  open_pptx path = Got prs ->
  summarize_presentation open_pptx path
  = ((lit "File: " ++ path)
       :: (lit "Slide count: " ++ str_of_nat (length (slides prs)))
       :: [] :: fst (print_slides 1 (slides prs)),
     snd (print_slides 1 (slides prs))).
Proof.
  intros H; unfold summarize_presentation; rewrite H.
  unfold eval, print; cbn [bind app].
  now destruct (print_slides 1 (slides prs)).
Qed.

(** C3 fails on a document of two slides whose first slide holds a shape
    whose text cannot be read: the read of line 55 stands outside every
    handler, the exception leaves the loop over the slides, and the report
    has the section of the first slide only, cut short after its layout
    line, although every read of the second slide succeeds. *)
Theorem C3_sections_cut_short :
  let report :=
    summarize_presentation (fun _ => Got Sample.broken_deck) (lit "deck.pptx") in
  length (slides Sample.broken_deck) = 2
  /\ fst report
     = [lit "File: deck.pptx"; lit "Slide count: 2"; [];
        slide_header 1; lit "Layout: Blank"]
  /\ filter is_slide_header (fst report) = [slide_header 1]
  /\ snd report = Raised OtherException
  /\ print_shape Sample.slide3 1 (Sample.unreadable 2) = ([], Raised OtherException)
  /\ readable_slide Sample.slide2 = true.
Proof. vm_compute; repeat split. Qed.

(** ** The input file *)

Lemma find_first {A} (f : A -> bool) (before : list A) (x : A) (after : list A) :
  Forall (fun a => f a = false) before -> f x = true ->
  find f (before ++ x :: after) = Some x.
Proof.
  induction 1 as [|a l Ha _ IH]; intros Hx; simpl.
  - now rewrite Hx.
  - rewrite Ha; auto.
Qed.

Lemma find_nowhere {A} (f : A -> bool) (l : list A) :
  Forall (fun a => f a = false) l -> find f l = None.
Proof. induction 1 as [|a l Ha _ IH]; simpl; [reflexivity|now rewrite Ha]. Qed.

(** C7: without a file argument the three default names are tried in the
    order pptx, potx, odp, and the run goes on exactly as if the first one
    that exists had been given; when none exists the run ends with the usage
    error of the argument parser, having printed nothing and called nothing. *)
Theorem C7_default_candidates (E : Environment) (w : World) :
  DEFAULT_CANDIDATES
  = [lit "disco-template.pptx"; lit "disco-template.potx"; lit "disco-template.odp"]
  /\ (forall before cand after,
         DEFAULT_CANDIDATES = before ++ cand :: after ->
         Forall (fun c => path_exists w c = false) before ->
         path_exists w cand = true ->
         choose_file w None = Some cand
         /\ main E None w = main E (Some cand) w)
  /\ (Forall (fun c => path_exists w c = false) DEFAULT_CANDIDATES ->
      main E None w = (w, UsageError no_input_message)).
Proof.
  split; [reflexivity|]; split.
  - intros before cand after Hl Hb Hc.
    assert (Hf : choose_file w None = Some cand).
    { unfold choose_file; rewrite Hl; now apply find_first. }
    split; [exact Hf|].
    unfold main; rewrite Hf; reflexivity.
  - intros Hnone; unfold main, choose_file.
    now rewrite (find_nowhere _ _ Hnone).
Qed.

(** C7 where only the .odp and .potx defaults exist, and where none does. *)
Lemma C7_default_candidates_witness :
  let E := sample_env false (Got tt) true (Some Sample.deck) in
  let w := empty_world [lit "disco-template.odp"; lit "disco-template.potx"] in
  main E None w = main E (Some (lit "disco-template.potx")) w
  /\ main E None (empty_world [lit "notes.txt"])
     = (empty_world [lit "notes.txt"], UsageError no_input_message).
Proof.
  intros E w; split.
  - refine (proj2 (proj1 (proj2 (C7_default_candidates E w))
                     [lit "disco-template.pptx"] (lit "disco-template.potx")
                     [lit "disco-template.odp"] eq_refl _ eq_refl)).
    repeat constructor.
  - refine (proj2 (proj2 (C7_default_candidates E (empty_world [lit "notes.txt"]))) _).
    repeat constructor.
Defined.

(** ** No converter *)

Lemma splitext_parts (p : pystr) : fst (splitext p) ++ snd (splitext p) = p.
Proof.
  unfold splitext.
  destruct (rfind SLASH p <? rfind DOT p)%Z; [|apply app_nil_r].
  destruct (forallb _ _); [apply app_nil_r | apply firstn_skipn].
Qed.

Lemma lower_app (a b : pystr) : lower (a ++ b) = lower a ++ lower b.
Proof. apply map_app. Qed.

(** A name whose extension is ".potx" in any letter case needs converting. *)
Lemma potx_needs_convert (file_arg : pystr) :
  lower (snd (splitext file_arg)) = lit ".potx" -> needs_convert file_arg = true.
Proof.
  intros H; unfold needs_convert; cbv zeta; rewrite H.
  rewrite <- (splitext_parts file_arg) at 1.
  rewrite lower_app, H; unfold endswith; rewrite rev_app_distr.
  reflexivity.
Qed.

Lemma say_ascii (E : Environment) (s : pystr) (w : World) :
  forallb (fun c => N.ltb c 128) s = true ->
  say E s w = ({| fs := fs w; stdout := stdout w ++ [s]; calls := calls w |}, Got tt).
Proof.
  intros H; unfold say, printable.
  assert (Hp : forallb (fun c => N.ltb c 128 || stdout_encodes E c) s = true).
  { rewrite forallb_forall in *; intros c Hc; now rewrite (H c Hc). }
  now rewrite Hp.
Qed.

(** C8: for an input whose extension is ".potx" in any letter case, when
    [soffice] is not on the search path, the run prints the warning
    "LibreOffice (soffice) not found; ..." and goes on to open and inspect
    the original file: that is the only call it makes, no directory is
    created, and the run ends as the inspection ends. *)
Theorem C8_no_converter_falls_back (E : Environment) (file : option pystr)
    (w : World) (file_arg : pystr) :
  choose_file w file = Some file_arg ->
  lower (snd (splitext file_arg)) = lit ".potx" ->
  which E (lit "soffice") = None ->
  let report := summarize_presentation (open_pptx E (fs w)) file_arg in
  main E file w
  = ({| fs := fs w;
        stdout := (stdout w ++ [not_found_message]) ++ fst report;
        calls := calls w ++ [Open file_arg] |},
     match snd report with
     | Got _ => Returned
     | Raised e => Uncaught e
     end)
  /\ not_found_message
     = lit "LibreOffice (soffice) " ++ lit "not found"
         ++ lit "; cannot auto-convert .potx/.odp".
Proof.
  intros Hf Hext Hwhich report; split; [|reflexivity].
  unfold main; rewrite Hf.
  unfold convert; rewrite (potx_needs_convert file_arg Hext), Hwhich.
  rewrite (say_ascii E not_found_message w eq_refl); cbn [abind].
  unfold inspect; cbn [fs stdout calls].
  subst report.
  destruct (summarize_presentation (open_pptx E (fs w)) file_arg) as [lines r].
  reflexivity.
Qed.

(** C8 on "Template.POTX" without LibreOffice. *)
Lemma C8_no_converter_falls_back_witness :
  let E := sample_env false (Got tt) true (Some Sample.deck) in
  let w := empty_world [lit "Template.POTX"] in
  let report := summarize_presentation (open_pptx E (fs w)) (lit "Template.POTX") in
  main E (Some (lit "Template.POTX")) w
  = ({| fs := fs w;
        stdout := (stdout w ++ [not_found_message]) ++ fst report;
        calls := calls w ++ [Open (lit "Template.POTX")] |},
     match snd report with
     | Got _ => Returned
     | Raised e => Uncaught e
     end).
Proof.
  intros E w report.
  exact (proj1 (C8_no_converter_falls_back E (Some (lit "Template.POTX")) w
                  (lit "Template.POTX") eq_refl eq_refl eq_refl)).
Defined.

(** ** The temporary directory *)

Lemma path_join_nonempty (a b : pystr) :
  nonempty b = true -> nonempty (path_join a b) = true.
Proof.
  unfold path_join; destruct b as [|c b]; [discriminate|]; intros _.
  destruct (startswith (c :: b) [SLASH]); [reflexivity|].
  destruct (negb (nonempty a) || endswith a [SLASH]); now destruct a.
Qed.


Lemma say_frame (E : Environment) (s : pystr) (w w1 : World) (r : access unit) :
  say E s w = (w1, r) -> fs w1 = fs w /\ calls w1 = calls w.
Proof.
  unfold say; destruct (printable E s); intros H; injection H as <- _; auto.
Qed.

Lemma say_printed (E : Environment) (s : pystr) (w w1 : World) (u : unit) :
  say E s w = (w1, Got u) -> stdout w1 = stdout w ++ [s].
Proof.
  unfold say; destruct (printable E s); intros H; [|discriminate].
  now injection H as <- _.
Qed.

Lemma say_raises (E : Environment) (s : pystr) (w w1 : World) (e : exn) :
  say E s w = (w1, Raised e) -> e = OtherException /\ w1 = w.
Proof.
  unfold say; destruct (printable E s); intros H; [discriminate|].
  now injection H as <- <-.
Qed.

Section Cleanup.

Variable E : Environment.

Lemma try_convert_calls (soffice file_arg d path : pystr) (w w1 : World)
    (r : access unit) :
  try_convert E soffice file_arg d w = (w1, path, r) ->
  calls w1 = calls w ++ [Run (soffice_argv soffice file_arg d)].
Proof.
  unfold try_convert.
  destruct (subprocess_run E (soffice_argv soffice file_arg d) (fs w))
    as [files status].
  destruct status as [u|e]; [|intros H; now injection H as <- _ _].
  destruct (path_exists _ _).
  - destruct (say E _ _) as [w2 printed] eqn:Hsay; intros H; injection H as <- _ _.
    now destruct (say_frame E _ _ _ _ Hsay) as [_ ->].
  - destruct (say E _ _) as [w2 printed] eqn:Hsay; intros H; injection H as <- _ _.
    now destruct (say_frame E _ _ _ _ Hsay) as [_ ->].
Qed.




(** The conversion step does hand over when the converter returns or
    reports failure by its exit status and stdout takes the lines. *)
Lemma conversion_step_hands_over (soffice file_arg dir name : pystr) (w : World) :
  needs_convert file_arg = true ->
  which E (lit "soffice") = Some soffice -> nonempty soffice = true ->
  mkdtemp E (fs w) = Got (dir, name) ->
  conversion_reports_by_status E ->
  (forall c, stdout_encodes E c = true) ->
  exists w1 path,
    convert E file_arg w
    = (w1, Got (Some (path_join dir (lit "pptx_convert_" ++ name)), path)).
Proof.
  intros Hn Hw Hs Hm Hstatus Henc.
  assert (Hsay : forall s w0, say E s w0
                 = ({| fs := fs w0; stdout := stdout w0 ++ [s]; calls := calls w0 |},
                    Got tt)).
  { intros s w0; unfold say, printable.
    assert (Hp : forallb (fun c => N.ltb c 128 || stdout_encodes E c) s = true)
      by (apply forallb_forall; intros c _; rewrite Henc; apply orb_true_r).
    now rewrite Hp. }
  unfold convert; cbv zeta; rewrite Hn, Hw, Hs.
  unfold run_conversion; rewrite Hm.
  set (d := path_join dir (lit "pptx_convert_" ++ name)).
  unfold try_convert.
  pose proof (Hstatus (soffice_argv soffice file_arg d)
                (fs (record (Mkdtemp d) (d :: fs w) w))) as Hst.
  destruct (subprocess_run E (soffice_argv soffice file_arg d)
              (fs (record (Mkdtemp d) (d :: fs w) w))) as [files status].
  destruct status as [u|e].
  - destruct (path_exists _ _); rewrite Hsay; eauto.
  - rewrite (Hst e eq_refl), Hsay; cbn [abind]; eauto.
Qed.

End Cleanup.




(** Not covered by C2: an exception of another kind raised by the converter
    invocation leaves [main] before the [try]/[finally] of lines 141-148 is
    entered, so no removal is attempted. *)
Lemma converter_crash_skips_cleanup :
  let E := sample_env true (Raised OtherException) true (Some Sample.deck) in
  let run := main E (Some (lit "template.potx")) (empty_world [lit "template.potx"]) in
  snd run = Uncaught OtherException
  /\ calls (fst run)
     = [Mkdtemp (lit "/tmp/pptx_convert_k3x9");
        Run (soffice_argv (lit "/usr/bin/soffice") (lit "template.potx")
               (lit "/tmp/pptx_convert_k3x9"))]
  /\ path_exists (fst run) (lit "/tmp/pptx_convert_k3x9") = true.
Proof. vm_compute; repeat split. Qed.

(** Nor is this: the line "Converted ... -> ..." of line 133 holds the file
    name and is printed before the [try]/[finally]; when stdout cannot
    encode the name the run ends there, after a conversion that succeeded,
    and no removal is attempted. *)
Lemma unprintable_name_skips_cleanup :
  let E := Gallery.ascii_stdout in
  let run := main E (Some Gallery.accented_name)
               (empty_world [Gallery.accented_name]) in
  snd run = Uncaught OtherException
  /\ calls (fst run)
     = [Mkdtemp (lit "/tmp/pptx_convert_k3x9");
        Run (soffice_argv (lit "/usr/bin/soffice") Gallery.accented_name
               (lit "/tmp/pptx_convert_k3x9"))]
  /\ stdout (fst run) = []
  /\ path_exists (fst run) (lit "/tmp/pptx_convert_k3x9") = true.
Proof. vm_compute; repeat split. Qed.

(** ** Failures inside the pass over a shape *)

Section ShapeFailures.

Variable slide : Slide.
Variable shape : Shape.

(** The title marker (lines 43-47) is computed under a handler: whatever
    the reads raise, the line comes back, marked or not. *)
Lemma title_marker_contained (info : pystr) :
  mark_title slide shape info = info
  \/ mark_title slide shape info = info ++ lit " [TITLE]".
Proof.
  unfold mark_title.
  destruct (shapes slide) as [sh|e]; cbn [abind try_except]; auto.
  destruct (getattr (title sh) None) as [t|e]; cbn [abind try_except]; auto.
  destruct (shape_eq shape t); auto.
Qed.

(** The placeholder index (lines 50-51) is read under a handler. *)
Lemma placeholder_index_contained (info : pystr) :
  is_placeholder shape = Got true ->
  exists r, mark_placeholder shape info = Got r
            /\ (r = info
                \/ exists i, r = info ++ lit " (placeholder idx=" ++ str_of_N i
                                   ++ lit ")").
Proof.
  intros Hp; unfold mark_placeholder; rewrite Hp; cbn [getattr abind].
  eexists; split; [reflexivity|].
  destruct (placeholder_format shape) as [pf|e]; cbn [abind try_except]; auto.
  destruct (idx pf) as [i|e]; cbn [abind try_except]; eauto.
Qed.

(** The image of a shape of type PICTURE (lines 60-65) is read under a
    handler: when it cannot be read the fallback is appended. *)
Lemma picture_read_contained (stype : MsoShapeType) (info : pystr) (e : exn) :
  is_PICTURE stype = true -> image shape = Raised e ->
  add_picture stype shape info = Got (info ++ could_not_read).
Proof.
  intros Hp Hi; unfold add_picture; rewrite Hp, Hi; reflexivity.
Qed.

(** Reading the text of a shape with a text frame (line 55) stands outside
    every handler: what it raises leaves the pass, and no line is printed. *)
Lemma text_failure_escapes (si : nat) (stype : MsoShapeType) (e : exn) :
  shape_type shape = Got stype ->
  tolerated (member_name stype) = true ->
  tolerated (is_placeholder shape) = true ->
  has_text_frame shape = Got true ->
  text shape = Raised e ->
  print_shape slide si shape = ([], Raised e).
Proof.
  intros Hst Hname Hph Hh Ht.
  rewrite print_shape_eq; unfold shape_info; rewrite Hst; cbn [abind].
  destruct (typename_of_tolerated stype Hname) as [typename ->]; cbn [abind].
  cbv zeta.
  destruct (mark_placeholder_tolerated shape
              (mark_title slide shape
                 (lit "Shape " ++ str_of_nat si ++ lit ": " ++ typename)) Hph)
    as [i1 ->]; cbn [abind].
  unfold add_text; rewrite Hh, Ht; reflexivity.
Qed.

(** So does what [hasattr(shape, 'image')] raises (line 59), unless it is
    [AttributeError]. *)
Lemma image_probe_failure_escapes (si : nat) (stype : MsoShapeType) (e : exn) :
  shape_type shape = Got stype ->
  tolerated (member_name stype) = true ->
  tolerated (is_placeholder shape) = true ->
  has_text_frame shape = Got false ->
  is_PICTURE stype = false ->
  image shape = Raised e -> e <> AttributeError ->
  print_shape slide si shape = ([], Raised e).
Proof.
  intros Hst Hname Hph Hh Hpic Hi He.
  rewrite print_shape_eq; unfold shape_info; rewrite Hst; cbn [abind].
  destruct (typename_of_tolerated stype Hname) as [typename ->]; cbn [abind].
  cbv zeta.
  destruct (mark_placeholder_tolerated shape
              (mark_title slide shape
                 (lit "Shape " ++ str_of_nat si ++ lit ": " ++ typename)) Hph)
    as [i1 ->]; cbn [abind].
  unfold add_text; rewrite Hh; cbn [getattr abind].
  unfold add_picture; rewrite Hpic, Hi.
  destruct e; [now destruct He | reflexivity | reflexivity].
Qed.

End ShapeFailures.

(** C1, at a text-bearing shape whose text cannot be read: the pass over the
    shape raises and prints no line, the pass over its slide raises, and the
    run ends there with the second slide never reached. *)
Theorem C1_unreadable_text_escapes :
  has_text_frame (Sample.unreadable 2) = Got true
  /\ text (Sample.unreadable 2) = Raised OtherException
  /\ print_shape Sample.slide3 1 (Sample.unreadable 2) = ([], Raised OtherException)
  /\ snd (print_slide 1 Sample.slide3) = Raised OtherException
  /\ summarize_presentation (fun _ => Got Sample.broken_deck) (lit "deck.pptx")
     = ([lit "File: deck.pptx"; lit "Slide count: 2"; []; lit "--- Slide 1 ---";
         lit "Layout: Blank"],
        Raised OtherException).
Proof. repeat split; vm_compute; reflexivity. Qed.

(** * Further properties of the script *)

(** ** The make-up of a shape line *)

Section ShapeLineParts.

Variable slide : Slide.
Variable shape : Shape.

(** Lines 48-53: nothing is appended, or the index of the placeholder. *)
Lemma mark_placeholder_cases (info r : pystr) :
  mark_placeholder shape info = Got r ->
  exists ph,
    r = info ++ ph
    /\ (ph = []
        \/ exists pf i,
             getattr (is_placeholder shape) false = Got true
             /\ placeholder_format shape = Got pf /\ idx pf = Got i
             /\ ph = lit " (placeholder idx=" ++ str_of_N i ++ lit ")").
Proof.
  unfold mark_placeholder; intros H.
  apply abind_got in H as [p [Hp H]]; apply Got_inj in H; subst r.
  destruct p; [|exists []; rewrite app_nil_r; auto].
  destruct (placeholder_format shape) as [pf|e] eqn:Hpf; cbn [abind try_except];
    [|exists []; rewrite app_nil_r; auto].
  destruct (idx pf) as [i|e] eqn:Hi; cbn [abind try_except];
    [|exists []; rewrite app_nil_r; auto].
  eexists; split; [reflexivity|right]; exists pf, i; auto.
Qed.

(** Lines 54-57: nothing is appended, or the quoted snippet. *)
Lemma add_text_cases (info r : pystr) :
  add_text shape info = Got r ->
  exists txt,
    r = info ++ txt
    /\ ((txt = [] /\ getattr (has_text_frame shape) false = Got false)
        \/ exists raw,
             getattr (has_text_frame shape) false = Got true
             /\ text shape = Got raw
             /\ txt = lit " | text='" ++ snippet (normalize raw) ++ lit "'").
Proof.
  unfold add_text; intros H.
  apply abind_got in H as [h [Hh H]].
  destruct h.
  - apply abind_got in H as [raw [Hraw H]]; apply Got_inj in H; subst r.
    eexists; split; [reflexivity|right]; exists raw; auto.
  - apply Got_inj in H; subst r; exists []; rewrite app_nil_r; auto.
Qed.

(** Lines 59-65: nothing is appended, or the fallback, or the descriptor. *)
Lemma add_picture_cases (stype : MsoShapeType) (info r : pystr) :
  add_picture stype shape info = Got r ->
  exists pic,
    r = info ++ pic
    /\ ((pic = [] /\ is_PICTURE stype = false
         /\ image shape = Raised AttributeError)
        \/ (pic = could_not_read
            /\ (is_PICTURE stype = true \/ exists img, image shape = Got img))
        \/ exists img b f e,
             image shape = Got img /\ image_blob img = Got b
             /\ getattr (filename img) (Some (lit "embedded")) = Got f
             /\ ext img = Got e
             /\ pic = lit " | picture: " ++ format_filename f ++ lit " ("
                        ++ str_of_nat (length b) ++ lit " bytes, ext=" ++ e
                        ++ lit ")").
Proof.
  unfold add_picture; intros H.
  apply abind_got in H as [p [Hp H]]; apply Got_inj in H; subst r.
  assert (Hsel : p = true -> is_PICTURE stype = true \/ exists img, image shape = Got img).
  { intros ->; destruct (is_PICTURE stype); [now left|right].
    destruct (image shape) as [img|[]]; try discriminate; eauto. }
  destruct p.
  - specialize (Hsel eq_refl).
    destruct (image shape) as [img|e] eqn:Himg; cbn [abind try_except].
    2:{ exists could_not_read; split; [reflexivity|right; left].
        split; [reflexivity|].
        destruct Hsel as [Hsel|[img Hsel]]; [now left|discriminate]. }
    destruct (image_blob img) as [b|e] eqn:Hb; cbn [abind try_except];
      [|exists could_not_read; split; [reflexivity|right; left; eauto]].
    destruct (getattr (filename img) (Some (lit "embedded"))) as [f|e] eqn:Hf;
      cbn [abind try_except];
      [|exists could_not_read; split; [reflexivity|right; left; eauto]].
    destruct (ext img) as [e|e'] eqn:He; cbn [abind try_except];
      [|exists could_not_read; split; [reflexivity|right; left; eauto]].
    eexists; split; [reflexivity|right; right]; exists img, b, f, e; auto.
  - exists []; rewrite app_nil_r; split; [reflexivity|left].
    clear Hsel.
    destruct (is_PICTURE stype); [discriminate|].
    destruct (image shape) as [img|[]]; try discriminate; auto.
Qed.

End ShapeLineParts.

(** X1: every line printed for a shape reads "Shape <index>: <type name>",
    then " [TITLE]" or nothing, then the placeholder index or nothing, then
    the quoted text snippet or nothing, then nothing, the picture fallback
    or the picture descriptor - in this order and with nothing else. *)
Theorem shape_line_format (slide : Slide) (si : nat) (shape : Shape)
    (line : pystr) :
  In line (fst (print_shape slide si shape)) ->
  exists typename marker ph txt pic,
    (stype <- shape_type shape ;; typename_of stype) = Got typename
    /\ line = lit "Shape " ++ str_of_nat si ++ lit ": " ++ typename
                ++ marker ++ ph ++ txt ++ pic
    /\ (marker = [] \/ marker = lit " [TITLE]")
    /\ (ph = [] \/ exists i, ph = lit " (placeholder idx=" ++ str_of_N i ++ lit ")")
    /\ (txt = []
        \/ exists raw, text shape = Got raw
                       /\ txt = lit " | text='" ++ snippet (normalize raw) ++ lit "'")
    /\ (pic = [] \/ pic = could_not_read
        \/ exists f n e, pic = lit " | picture: " ++ format_filename f ++ lit " ("
                                 ++ str_of_nat n ++ lit " bytes, ext=" ++ e
                                 ++ lit ")").
Proof.
  intros Hin; rewrite print_shape_eq in Hin.
  destruct (shape_info slide si shape) as [l|e] eqn:E; simpl in Hin; [|tauto].
  destruct Hin as [<-|[]].
  unfold shape_info in E.
  apply abind_got in E as [stype [Hst E]].
  apply abind_got in E as [typename [Hty E]]; cbv zeta in E.
  apply abind_got in E as [i1 [H1 E]].
  apply abind_got in E as [i2 [H2 E]].
  apply mark_placeholder_cases in H1 as [ph [-> Hph]].
  apply add_text_cases in H2 as [txt [-> Htxt]].
  apply add_picture_cases in E as [pic [-> Hpic]].
  destruct (title_marker_contained slide shape
              (lit "Shape " ++ str_of_nat si ++ lit ": " ++ typename)) as [Hm|Hm];
    rewrite Hm.
  - exists typename, [], ph, txt, pic; repeat split.
    + now rewrite Hst.
    + now rewrite <- !app_assoc.
    + now left.
    + destruct Hph as [->|(pf & i & _ & _ & _ & ->)]; eauto.
    + destruct Htxt as [[-> _]|(raw & _ & Hraw & ->)]; eauto.
    + destruct Hpic as [[-> _]|[[-> _]|(img & b & f & e & _ & _ & _ & _ & ->)]];
        eauto 6.
  - exists typename, (lit " [TITLE]"), ph, txt, pic; repeat split.
    + now rewrite Hst.
    + now rewrite <- !app_assoc.
    + now right.
    + destruct Hph as [->|(pf & i & _ & _ & _ & ->)]; eauto.
    + destruct Htxt as [[-> _]|(raw & _ & Hraw & ->)]; eauto.
    + destruct Hpic as [[-> _]|[[-> _]|(img & b & f & e & _ & _ & _ & _ & ->)]];
        eauto 6.
Qed.

(** X1 on the heading of the first sample slide. *)
Lemma shape_line_format_witness :
  let line := nth 0 (fst (print_shape Sample.slide1 1 Sample.heading)) [] in
  In line (fst (print_shape Sample.slide1 1 Sample.heading))
  /\ exists typename marker ph txt pic,
      line = lit "Shape " ++ str_of_nat 1 ++ lit ": " ++ typename
               ++ marker ++ ph ++ txt ++ pic
      /\ (marker = [] \/ marker = lit " [TITLE]").
Proof.
  intros line.
  assert (Hline : In line (fst (print_shape Sample.slide1 1 Sample.heading)))
    by (vm_compute; left; reflexivity).
  split; [exact Hline|].
  destruct (shape_line_format Sample.slide1 1 Sample.heading line Hline)
    as (typename & marker & ph & txt & pic & _ & E & Hm & _).
  exists typename, marker, ph, txt, pic; split; [exact E | exact Hm].
Defined.

(** ** Pictures *)

(** The file name shown for an image (line 63): the name, "None" for an
    image without one, "embedded" for an image object without the
    attribute. *)
Lemma shown_filename (img : Image) :
  tolerated (filename img) = true ->
  getattr (filename img) (Some (lit "embedded"))
  = Got match filename img with
        | Got f => f
        | Raised _ => Some (lit "embedded")
        end.
Proof. destruct (filename img) as [f|[]]; try discriminate; reflexivity. Qed.

(** X2: when the image of a shape, its bytes and its extension can be read,
    the line of the shape ends with " | picture: <name> (<n> bytes,
    ext=<ext>)" where n is the number of bytes and the name is the image's
    file name, "None" if the file name is [None], and "embedded" if the
    image object has no file name attribute - whether or not the shape's
    type is PICTURE. *)
Theorem picture_descriptor (slide : Slide) (si : nat) (shape : Shape)
    (img : Image) (b : list Byte.byte) (e line : pystr) :
  image shape = Got img ->
  image_blob img = Got b ->
  ext img = Got e ->
  tolerated (filename img) = true ->
  In line (fst (print_shape slide si shape)) ->
  exists before,
    line = before ++ lit " | picture: "
             ++ match filename img with
                | Got (Some name) => name
                | Got None => lit "None"
                | Raised _ => lit "embedded"
                end
             ++ lit " (" ++ str_of_nat (length b) ++ lit " bytes, ext=" ++ e
             ++ lit ")".
Proof.
  intros Himg Hb He Hf Hin; rewrite print_shape_eq in Hin.
  destruct (shape_info slide si shape) as [l|x] eqn:E; simpl in Hin; [|tauto].
  destruct Hin as [<-|[]].
  unfold shape_info in E.
  apply abind_got in E as [stype [Hst E]].
  apply abind_got in E as [typename [Hty E]]; cbv zeta in E.
  apply abind_got in E as [i1 [H1 E]].
  apply abind_got in E as [i2 [H2 E]].
  unfold add_picture in E; rewrite Himg in E.
  assert (Hsel : (if is_PICTURE stype then Got true else hasattr (Got img))
                 = Got true) by (now destruct (is_PICTURE stype)).
  rewrite Hsel in E; cbn [abind] in E.
  rewrite Hb in E; cbn [abind] in E.
  rewrite (shown_filename img Hf), He in E; cbn [abind try_except] in E.
  apply Got_inj in E; subst l.
  exists i2; do 2 f_equal.
  destruct (filename img) as [[name|]|x]; reflexivity.
Qed.

(** X2 on a picture whose image was loaded from a stream, and on a chart
    frame exposing an image object without a file name attribute. *)
Lemma picture_descriptor_witness :
  let pic := Gallery.frame 2 "PICTURE (13)" true (Got Gallery.streamed) in
  let odd := Gallery.frame 3 "CHART (3)" false (Got Gallery.nameless) in
  let slide := Sample.mk_slide None [pic; odd] "Blank" [] [] in
  fst (print_shape slide 1 pic)
  = [lit "Shape 1: PICTURE (13) | picture: None (2 bytes, ext=jpg)"]
  /\ (exists before,
         lit "Shape 1: PICTURE (13) | picture: None (2 bytes, ext=jpg)"
         = before ++ lit " | picture: " ++ lit "None" ++ lit " ("
             ++ str_of_nat 2 ++ lit " bytes, ext=" ++ lit "jpg" ++ lit ")")
  /\ fst (print_shape slide 2 odd)
     = [lit "Shape 2: CHART (3) | picture: embedded (3 bytes, ext=gif)"]
  /\ (exists before,
         lit "Shape 2: CHART (3) | picture: embedded (3 bytes, ext=gif)"
         = before ++ lit " | picture: " ++ lit "embedded" ++ lit " ("
             ++ str_of_nat 3 ++ lit " bytes, ext=" ++ lit "gif" ++ lit ")").
Proof.
  intros pic odd slide.
  split; [vm_compute; reflexivity|]; split; [|split; [vm_compute; reflexivity|]].
  - refine (picture_descriptor slide 1 pic Gallery.streamed _ _ _
              eq_refl eq_refl eq_refl eq_refl _).
    vm_compute; left; reflexivity.
  - refine (picture_descriptor slide 2 odd Gallery.nameless _ _ _
              eq_refl eq_refl eq_refl eq_refl _).
    vm_compute; left; reflexivity.
Defined.

(** X3: the picture part is never left out silently: for a shape of type
    PICTURE whose image cannot be read, and for any shape whose image object
    is there but whose bytes, file name or extension cannot be read, the
    line of the shape ends with " | picture: (could not read image)". *)
Theorem picture_fallback (slide : Slide) (si : nat) (shape : Shape)
    (stype : MsoShapeType) (line : pystr) :
  shape_type shape = Got stype ->
  (is_PICTURE stype = true /\ exists x, image shape = Raised x)
  \/ (exists img, image shape = Got img
                  /\ ((exists x, image_blob img = Raised x)
                      \/ tolerated (filename img) = false
                      \/ exists x, ext img = Raised x)) ->
  In line (fst (print_shape slide si shape)) ->
  exists before, line = before ++ lit " | picture: (could not read image)".
Proof.
  intros Hst Hbad Hin; rewrite print_shape_eq in Hin.
  destruct (shape_info slide si shape) as [l|x] eqn:E; simpl in Hin; [|tauto].
  destruct Hin as [<-|[]].
  unfold shape_info in E; rewrite Hst in E; cbn [abind] in E.
  apply abind_got in E as [typename [Hty E]]; cbv zeta in E.
  apply abind_got in E as [i1 [H1 E]].
  apply abind_got in E as [i2 [H2 E]].
  exists i2; unfold add_picture in E.
  destruct Hbad as [[Hpic [x Himg]]|[img [Himg Hbad]]].
  - rewrite Hpic, Himg in E; cbn [abind try_except] in E.
    now apply Got_inj in E.
  - rewrite Himg in E.
    assert (Hsel : (if is_PICTURE stype then Got true else hasattr (Got img))
                   = Got true) by (now destruct (is_PICTURE stype)).
    rewrite Hsel in E; cbn [abind] in E.
    destruct Hbad as [[x Hb]|[Hf|[x He]]].
    + rewrite Hb in E; cbn [abind try_except] in E; now apply Got_inj in E.
    + destruct (image_blob img); cbn [abind try_except] in E;
        [|now apply Got_inj in E].
      destruct (filename img) as [f|[]]; try discriminate;
        cbn [getattr abind try_except] in E; now apply Got_inj in E.
    + destruct (image_blob img); cbn [abind try_except] in E;
        [|now apply Got_inj in E].
      destruct (getattr (filename img) (Some (lit "embedded")));
        cbn [abind try_except] in E; [|now apply Got_inj in E].
      rewrite He in E; cbn [abind try_except] in E; now apply Got_inj in E.
Qed.

(** X3 on a linked picture and on a picture whose bytes cannot be read. *)
Lemma picture_fallback_witness :
  let torn := Gallery.frame 5 "PICTURE (13)" true (Got Gallery.torn) in
  fst (print_shape Sample.slide2 2 (Sample.linked_picture 3))
  = [lit "Shape 2: PICTURE (13) | picture: (could not read image)"]
  /\ (exists before,
         lit "Shape 2: PICTURE (13) | picture: (could not read image)"
         = before ++ lit " | picture: (could not read image)")
  /\ fst (print_shape Sample.slide2 5 torn)
     = [lit "Shape 5: PICTURE (13) | picture: (could not read image)"]
  /\ (exists before,
         lit "Shape 5: PICTURE (13) | picture: (could not read image)"
         = before ++ lit " | picture: (could not read image)").
Proof.
  intros torn.
  split; [vm_compute; reflexivity|]; split; [|split; [vm_compute; reflexivity|]].
  - refine (picture_fallback Sample.slide2 2 (Sample.linked_picture 3)
              (Sample.member "PICTURE (13)" true) _ eq_refl _ _).
    + left; split; [reflexivity|]; exists OtherException; reflexivity.
    + vm_compute; left; reflexivity.
  - refine (picture_fallback Sample.slide2 5 torn
              (Sample.member "PICTURE (13)" true) _ eq_refl _ _).
    + right; exists Gallery.torn; split; [reflexivity|].
      left; exists OtherException; reflexivity.
    + vm_compute; left; reflexivity.
Defined.

(** ** The title marker, conversely *)

Lemma mark_title_miss (slide : Slide) (shape : Shape) (info : pystr) :
  (sh <- shapes slide ;; t <- getattr (title sh) None ;; Got (shape_eq shape t))
  <> Got true ->
  mark_title slide shape info = info.
Proof.
  unfold mark_title; intros H.
  destruct (shapes slide) as [sh|e]; cbn [abind try_except] in *; [|reflexivity].
  destruct (getattr (title sh) None) as [t|e]; cbn [abind try_except] in *;
    [|reflexivity].
  destruct (shape_eq shape t); [now destruct H | reflexivity].
Qed.

(** X4: unless reading the slide's title shape succeeds and the shape at
    hand equals it - so also when the slide has no title shape and when the
    read raises - the type name in the shape's line is not followed by
    " [TITLE]". *)
Theorem other_shapes_unmarked (slide : Slide) (si : nat) (shape : Shape)
    (line : pystr) :
  (sh <- shapes slide ;; t <- getattr (title sh) None ;; Got (shape_eq shape t))
  <> Got true ->
  In line (fst (print_shape slide si shape)) ->
  exists typename rest,
    (stype <- shape_type shape ;; typename_of stype) = Got typename
    /\ line = lit "Shape " ++ str_of_nat si ++ lit ": " ++ typename ++ rest
    /\ startswith rest (lit " [TITLE]") = false.
Proof.
  intros Hmiss Hin; rewrite print_shape_eq in Hin.
  destruct (shape_info slide si shape) as [l|e] eqn:E; simpl in Hin; [|tauto].
  destruct Hin as [<-|[]].
  unfold shape_info in E.
  apply abind_got in E as [stype [Hst E]].
  apply abind_got in E as [typename [Hty E]]; cbv zeta in E.
  rewrite (mark_title_miss slide shape _ Hmiss) in E.
  apply abind_got in E as [i1 [H1 E]].
  apply abind_got in E as [i2 [H2 E]].
  apply mark_placeholder_cases in H1 as [ph [-> Hph]].
  apply add_text_cases in H2 as [txt [-> Htxt]].
  apply add_picture_cases in E as [pic [-> Hpic]].
  exists typename, (ph ++ txt ++ pic); split; [now rewrite Hst|]; split.
  - now rewrite <- !app_assoc.
  - destruct Hph as [->|(pf & i & _ & _ & _ & ->)]; [|reflexivity].
    destruct Htxt as [[-> _]|(raw & _ & _ & ->)]; [|reflexivity].
    destruct Hpic as [[-> _]|[[-> _]|(img & b & f & e & _ & _ & _ & _ & ->)]];
      reflexivity.
Qed.

(** X4 on the subtitle of the first sample slide, which is not its title
    shape. *)
Lemma other_shapes_unmarked_witness :
  let shape := Sample.placeholder 3 1 (lit "Subtitle") in
  let line := nth 0 (fst (print_shape Sample.slide1 2 shape)) [] in
  In line (fst (print_shape Sample.slide1 2 shape))
  /\ exists typename rest,
      (stype <- shape_type shape ;; typename_of stype) = Got typename
      /\ line = lit "Shape " ++ str_of_nat 2 ++ lit ": " ++ typename ++ rest
      /\ startswith rest (lit " [TITLE]") = false.
Proof.
  intros shape line.
  assert (Hline : In line (fst (print_shape Sample.slide1 2 shape)))
    by (vm_compute; left; reflexivity).
  split; [exact Hline|].
  refine (other_shapes_unmarked Sample.slide1 2 shape line _ Hline).
  vm_compute; discriminate.
Defined.

(** ** Shape numbers *)

Lemma print_shapes_numbered (slide : Slide) (l : list Shape) :
  forall (si : nat) (lines : list pystr),
    print_shapes slide si l = (lines, Got tt) ->
    length lines = length l
    /\ forall k line,
         nth_error lines k = Some line ->
         exists rest, line = lit "Shape " ++ str_of_nat (si + k) ++ lit ": " ++ rest.
Proof.
  induction l as [|shape rest IH]; intros si lines H.
  - injection H as <-; split; [reflexivity|]; intros [|k] line E; discriminate.
  - cbn [print_shapes] in H.
    apply bind_completes in H as (o1 & [] & o2 & H1 & H2 & ->).
    rewrite print_shape_eq in H1.
    destruct (shape_info slide si shape) as [l1|e] eqn:E; [|discriminate].
    injection H1 as <-.
    destruct (IH (S si) o2 H2) as [Hlen Hnth].
    split; [simpl; now rewrite Hlen|].
    intros [|k] line Hk; simpl in Hk.
    + injection Hk as <-; rewrite Nat.add_0_r.
      apply shape_info_parts in E
        as (stype & typename & marker & placeholder & txt & picture
            & _ & _ & _ & _ & ->).
      eexists; rewrite <- !app_assoc; reflexivity.
    + destruct (Hnth k line Hk) as [r ->].
      exists r; now rewrite Nat.add_succ_r.
Qed.

(** X5: in the section of a slide whose pass completes there are as many
    shape lines as the slide has shapes, and the k-th of them starts with
    "Shape k: ", counting from 1 in every slide. *)
Theorem shape_lines_numbered (i : nat) (slide : Slide) (sh : Shapes)
    (lines : list pystr) :
  shapes slide = Got sh ->
  print_slide i slide = (lines, Got tt) ->
  length (filter is_shape_line lines) = length (shape_list sh)
  /\ forall k line,
       nth_error (filter is_shape_line lines) k = Some line ->
       exists rest, line = lit "Shape " ++ str_of_nat (S k) ++ lit ": " ++ rest.
Proof.
  intros Hsh H.
  apply print_slide_completes in H as (sh' & shape_lines & Hsh' & Hp & ->).
  rewrite Hsh in Hsh'; apply Got_inj in Hsh'; subst sh'.
  assert (E : filter is_shape_line
                (slide_header i :: fst (print_title slide)
                   ++ fst (print_layout slide) ++ shape_lines
                   ++ fst (print_notes slide) ++ fst (print_images slide) ++ [[]])
              = shape_lines).
  { cbn [filter].
    change (is_shape_line (slide_header i)) with false; cbv iota.
    rewrite !filter_app.
    rewrite (filter_plain _ _ (fun x H => proj2 H) (title_plain slide)).
    rewrite (filter_plain _ _ (fun x H => proj2 H) (layout_plain slide)).
    rewrite (filter_plain _ _ (fun x H => proj2 H) (notes_plain slide)).
    rewrite (filter_plain _ _ (fun x H => proj2 H) (images_plain slide)).
    cbn [filter app]; rewrite app_nil_r.
    apply filter_all.
    pose proof (print_shapes_lines slide 1 (shape_list sh)) as Hall.
    rewrite Hp in Hall; cbn [fst] in Hall.
    revert Hall; apply Forall_impl; now intros x [rest ->]. }
  rewrite E.
  exact (print_shapes_numbered slide (shape_list sh) 1 shape_lines Hp).
Qed.

(** X5 on the first sample slide and its three shapes. *)
Lemma shape_lines_numbered_witness :
  let lines := fst (print_slide 1 Sample.slide1) in
  length (filter is_shape_line lines) = 3
  /\ forall k line,
       nth_error (filter is_shape_line lines) k = Some line ->
       exists rest, line = lit "Shape " ++ str_of_nat (S k) ++ lit ": " ++ rest.
Proof.
  intros lines.
  refine (shape_lines_numbered 1 Sample.slide1 _ lines eq_refl _).
  vm_compute; reflexivity.
Defined.

(** ** The list of related images *)

(** The item of an image part (line 93), before " - " is put in front. *)
Lemma image_items_listed (rp : list RelatedPart) :
  forallb readable_part rp = true ->
  exists imgs,
    image_items rp = Got imgs
    /\ Forall2 (fun rel it =>
                  exists pn ct,
                    partname rel = Got pn
                    /\ getattr (content_type rel) [] = Got ct
                    /\ it = pn ++ lit " (" ++ ct ++ lit ", "
                               ++ match blob rel with
                                  | Got b => str_of_nat (length b)
                                  | Raised _ => lit "unknown"
                                  end
                               ++ lit " bytes)")
               (filter is_image_part rp) imgs.
Proof.
  induction rp as [|rel rest IH]; intros H.
  - exists []; split; [reflexivity|constructor].
  - simpl in H; apply andb_true_iff in H as [Hrel Hrest].
    destruct (IH Hrest) as (more & Hmore & Hall).
    cbn [image_items filter]; unfold readable_part in Hrel; unfold is_image_part.
    destruct (getattr (content_type rel) []) as [ct|e] eqn:Hct; [|discriminate].
    cbn [abind].
    destruct (startswith ct (lit "image/")).
    + destruct (partname rel) as [pn|e] eqn:Hpn; [|discriminate].
      cbn [abind]; rewrite Hmore; cbn [abind].
      eexists; split; [reflexivity|].
      constructor; [|exact Hall].
      exists pn, ct; repeat split; auto.
      unfold image_item; now destruct (blob rel).
    + cbn [abind]; rewrite Hmore; cbn [abind].
      exists more; split; [reflexivity|exact Hall].
Qed.

(** X6: when the related parts of a slide can be read, the images part
    prints nothing if no part has a content type starting with "image/",
    and otherwise the header followed by one line per such part, in the
    order of the parts and skipping the others: " - <part name> (<content
    type>, <n> bytes)", where n is the number of bytes of the part or the
    word "unknown" when its bytes cannot be read. *)
Theorem image_parts_listed (slide : Slide) (p : Part) (rp : list RelatedPart) :
  part slide = Got p ->
  getattr (related_parts p) [] = Got rp ->
  forallb readable_part rp = true ->
  exists items,
    Forall2 (fun rel item =>
               exists pn ct,
                 partname rel = Got pn
                 /\ getattr (content_type rel) [] = Got ct
                 /\ item = lit " - " ++ pn ++ lit " (" ++ ct ++ lit ", "
                             ++ match blob rel with
                                | Got b => str_of_nat (length b)
                                | Raised _ => lit "unknown"
                                end
                             ++ lit " bytes)")
            (filter is_image_part rp) items
    /\ print_images slide
       = (match items with
          | [] => []
          | _ => lit "Images in slide:" :: items
          end, Got tt).
Proof.
  intros Hp Hrp Hread.
  destruct (image_items_listed rp Hread) as (imgs & Himgs & Hall).
  exists (map (fun it => lit " -" ++ lit " " ++ it) imgs); split.
  - clear Himgs; induction Hall as [|rel it rels its (pn & ct & Hpn & Hct & ->) _ IH];
      simpl; constructor; [|exact IH].
    exists pn, ct; repeat split; auto.
  - rewrite print_images_eq, Hp; cbn [abind]; rewrite Hrp; cbn [abind].
    rewrite Himgs; now destruct imgs.
Qed.

(** X6 on a slide with an image part, a layout part and an image part whose
    bytes cannot be read. *)
Lemma image_parts_listed_witness :
  fst (print_images Gallery.illustrated)
  = [lit "Images in slide:";
     lit " - /ppt/media/image1.png (image/png, 4 bytes)";
     lit " - /ppt/media/image2.jpeg (image/jpeg, unknown bytes)"]
  /\ exists items,
      length items = 2
      /\ print_images Gallery.illustrated
         = (match items with
            | [] => []
            | _ => lit "Images in slide:" :: items
            end, Got tt).
Proof.
  split; [vm_compute; reflexivity|].
  destruct (image_parts_listed Gallery.illustrated
              {| related_parts := Got [Sample.image_part; Sample.layout_part;
                                       Gallery.sealed_part] |}
              [Sample.image_part; Sample.layout_part; Gallery.sealed_part]
              eq_refl eq_refl eq_refl) as (items & Hall & E).
  exists items; split; [|exact E].
  apply Forall2_length in Hall; exact (eq_sym Hall).
Defined.

(** ** Notes, further *)

Lemma notes_texts_clean (l : list Shape) (texts : list pystr) :
  notes_texts l = Got texts ->
  Forall (fun t => exists raw, t = normalize raw /\ t <> []) texts.
Proof.
  revert texts; induction l as [|nsh rest IH]; intros texts H;
    cbn [notes_texts] in H.
  - apply Got_inj in H; subst; constructor.
  - apply abind_got in H as [h [_ H]].
    apply abind_got in H as [here [Hhere H]].
    apply abind_got in H as [more [Hmore H]].
    apply Got_inj in H; subst texts.
    apply Forall_app; split; [|now apply IH].
    destruct h.
    + apply abind_got in Hhere as [raw [_ Hhere]].
      apply Got_inj in Hhere; subst here.
      destruct (normalize raw) as [|c t] eqn:E; simpl; repeat constructor.
      exists raw; split; [now rewrite E | discriminate].
    + apply Got_inj in Hhere; subst; constructor.
Qed.

(** The texts collected are the entries of the note shapes, in order. *)
Lemma notes_texts_entries (l : list Shape) (texts : list pystr) :
  notes_texts l = Got texts -> texts = flat_map note_entry l.
Proof.
  revert texts; induction l as [|nsh rest IH]; intros texts H;
    cbn [notes_texts] in H.
  - apply Got_inj in H; now subst.
  - apply abind_got in H as [h [Hh H]].
    apply abind_got in H as [here [Hhere H]].
    apply abind_got in H as [more [Hmore H]].
    apply Got_inj in H; subst texts.
    cbn [flat_map]; rewrite <- (IH more Hmore); f_equal.
    unfold note_entry; rewrite Hh; destruct h.
    + apply abind_got in Hhere as [raw [Hraw Hhere]].
      apply Got_inj in Hhere; now rewrite Hraw.
    + now apply Got_inj in Hhere.
Qed.

(** X7: the texts that go into the "Notes:" line are, in the order of the
    note shapes, the texts of the shapes that have a text frame, each
    trimmed and with its line feeds replaced, those that come out empty
    left out.  A note shape without a text frame adds nothing, whatever its
    [text] would read, and so does a blank one; every text collected is
    non-empty, has no whitespace at either end and holds no line feed. *)
Theorem notes_entries_clean (slide : Slide) (texts : list pystr) :
  collect_notes slide = Got texts ->
  Forall (fun t =>
            t <> [] /\ ~ In LF t
            /\ (forall c r, t = c :: r -> isspace c = false)
            /\ (forall r c, t = r ++ [c] -> isspace c = false))
         texts
  /\ exists ns l,
       notes_slide slide = Got ns /\ notes_shapes ns = Got l
       /\ texts = flat_map note_entry l
       /\ (forall nsh,
              has_text_frame nsh = Got false
              \/ has_text_frame nsh = Raised AttributeError ->
              note_entry nsh = [])
       /\ (forall nsh raw,
              text nsh = Got raw -> forallb isspace raw = true ->
              note_entry nsh = [])
       /\ (forall nsh raw,
              has_text_frame nsh = Got true -> text nsh = Got raw ->
              strip raw <> [] ->
              note_entry nsh = [replace LF SPACE (strip raw)]).
Proof.
  unfold collect_notes; intros H.
  apply abind_got in H as [ns [Hns H]].
  apply abind_got in H as [l [Hl H]].
  split.
  - apply notes_texts_clean in H.
    revert H; apply Forall_impl.
    intros t (raw & -> & Hne).
    destruct (normalize_spec raw) as (_ & _ & Hlf & Hhd & Hlast); auto.
  - exists ns, l; split; [exact Hns|]; split; [exact Hl|].
    apply notes_texts_entries in H.
    split; [exact H|]; split; [|split].
    + intros nsh [Hf|Hf]; unfold note_entry; now rewrite Hf.
    + intros nsh raw Hraw Hblank; unfold note_entry, normalize.
      destruct (getattr (has_text_frame nsh) false) as [[]|e]; [|reflexivity..].
      now rewrite Hraw, (strip_blank raw Hblank).
    + intros nsh raw Hf Hraw Hne; unfold note_entry, normalize, replace.
      rewrite Hf, Hraw; cbn [getattr].
      now destruct (strip raw); [destruct Hne|].
Qed.

(** X7 on a slide with three note shapes, of which the first has no text
    frame but a text, and the third is blank: the second alone is kept. *)
Lemma notes_entries_clean_witness :
  notes_slide Gallery.annotated
  = Got {| notes_shapes := Got [Gallery.frameless_note;
                                Sample.text_box 2 (lit " say hello ");
                                Sample.text_box 3 (lit "  ")] |}
  /\ text Gallery.frameless_note = Got (lit "7")
  /\ collect_notes Gallery.annotated = Got [lit "say hello"]
  /\ [lit "say hello"]
     = flat_map note_entry [Gallery.frameless_note;
                            Sample.text_box 2 (lit " say hello ");
                            Sample.text_box 3 (lit "  ")]
  /\ note_entry Gallery.frameless_note = [].
Proof.
  split; [reflexivity|]; split; [reflexivity|]; split; [vm_compute; reflexivity|].
  destruct (notes_entries_clean Gallery.annotated [lit "say hello"])
    as (_ & ns & l & Hns & Hl & E & Hskip & _);
    [vm_compute; reflexivity|].
  apply Got_inj in Hns; subst ns; apply Got_inj in Hl; subst l.
  split; [exact E|].
  apply Hskip; now left.
Defined.

(** X8: when the note texts joined with " | " come to 400 characters or
    fewer, the notes part prints them whole after "Notes: ", and when no
    note carries text it prints nothing. *)
Theorem short_notes_whole (slide : Slide) (texts : list pystr) :
  collect_notes slide = Got texts ->
  length (join (lit " | ") texts) <= 400 ->
  print_notes slide
  = (match texts with
     | [] => []
     | _ => [lit "Notes: " ++ join (lit " | ") texts]
     end, Got tt).
Proof.
  intros Hc Hlen; unfold print_notes, notes_join; rewrite Hc.
  rewrite firstn_all2 by exact Hlen.
  now destruct texts.
Qed.

(** X8 on the notes of the first sample slide. *)
Lemma short_notes_whole_witness :
  print_notes Sample.slide1
  = ([lit "Notes: remember to smile | keep it short"], Got tt).
Proof.
  refine (short_notes_whole Sample.slide1
            [lit "remember to smile"; lit "keep it short"] _ _).
  - vm_compute; reflexivity.
  - vm_compute; lia.
Defined.

(** ** The layout line *)

Lemma print_layout_eq (slide : Slide) :
  print_layout slide
  = match getattr (slide_layout slide) None with
    | Got (Some l) =>
        match getattr (layout_name l) None with
        | Got (Some (c :: n)) => ([lit "Layout: " ++ c :: n], Got tt)
        | Got _ => ([], Got tt)
        | Raised e => ([], Raised e)
        end
    | Got None => ([], Got tt)
    | Raised e => ([], Raised e)
    end.
Proof.
  unfold print_layout.
  destruct (getattr (slide_layout slide) None) as [[l|]|e]; try reflexivity.
  unfold eval; cbn [bind].
  now destruct (getattr (layout_name l) None) as [[[|c n]|]|e].
Qed.

Lemma after_layout_no_layout_line (slide : Slide) (i : nat)
    (shape_lines tail : list pystr) :
  (shape_lines = []
   \/ exists sh, shapes slide = Got sh
                 /\ shape_lines = fst (print_shapes slide 1 (shape_list sh))) ->
  (tail = []
   \/ exists blank, tail = fst (print_notes slide) ++ fst (print_images slide)
                             ++ blank
                    /\ (blank = [] \/ blank = [[]])) ->
  Forall (fun l => is_layout_line l = false) (shape_lines ++ tail).
Proof.
  intros Hs Ht; apply Forall_app; split.
  - destruct Hs as [->|[sh [_ ->]]]; [constructor|].
    generalize (print_shapes_lines slide 1 (shape_list sh)); apply Forall_impl.
    now intros l [rest ->].
  - destruct Ht as [->|[blank [-> Hb]]]; [constructor|].
    apply Forall_app; split; [|apply Forall_app; split].
    + generalize (print_notes_begin slide); apply Forall_impl.
      now intros l [rest ->].
    + generalize (print_images_lines slide); apply Forall_impl.
      now intros l [[rest ->]|[rest ->]].
    + destruct Hb as [-> | ->]; repeat constructor.
Qed.

(** X9: a slide whose layout has a non-empty name gets the one line
    "Layout: <name>" right after the header and the title line; a slide
    without a layout - also one lacking the attribute - or whose layout has
    no name or an empty one gets no line starting with "Layout:", and its
    pass goes on. *)
Theorem layout_line (i : nat) (slide : Slide) :
  (forall l n,
      getattr (slide_layout slide) None = Got (Some l) ->
      getattr (layout_name l) None = Got (Some n) -> n <> [] ->
      exists rest,
        fst (print_slide i slide)
        = slide_header i :: fst (print_title slide) ++ (lit "Layout: " ++ n) :: rest
        /\ Forall (fun l => is_layout_line l = false) (fst (print_title slide))
        /\ Forall (fun l => is_layout_line l = false) rest)
  /\ (getattr (slide_layout slide) None = Got None
      \/ (exists l, getattr (slide_layout slide) None = Got (Some l)
                    /\ (getattr (layout_name l) None = Got None
                        \/ getattr (layout_name l) None = Got (Some []))) ->
      Forall (fun l => is_layout_line l = false) (fst (print_slide i slide))
      /\ snd (print_layout slide) = Got tt).
Proof.
  assert (Htitle : Forall (fun l => is_layout_line l = false)
                          (fst (print_title slide))).
  { generalize (print_title_lines slide); apply Forall_impl.
    now intros l [rest ->]. }
  destruct (print_slide_structure slide i) as (shape_lines & tail & E & Hs & Ht).
  pose proof (after_layout_no_layout_line slide i shape_lines tail Hs Ht) as Hrest.
  split.
  - intros l n Hl Hn Hne.
    exists (shape_lines ++ tail); split; [|split; assumption].
    rewrite E, print_layout_eq, Hl, Hn.
    destruct n as [|c n]; [now destruct Hne | reflexivity].
  - intros Hnone.
    assert (El : print_layout slide = ([], Got tt)).
    { rewrite print_layout_eq.
      destruct Hnone as [->|[l [-> [-> | ->]]]]; reflexivity. }
    split; [|now rewrite El].
    rewrite E, El; cbn [fst app].
    constructor; [reflexivity|].
    apply Forall_app; split; assumption.
Qed.

(** X9 on the first sample slide, laid out as "Title Slide", and on a slide
    whose layout has an empty name. *)
Lemma layout_line_witness :
  (exists rest,
      fst (print_slide 1 Sample.slide1)
      = slide_header 1 :: fst (print_title Sample.slide1)
          ++ (lit "Layout: " ++ lit "Title Slide") :: rest)
  /\ Forall (fun l => is_layout_line l = false) (fst (print_slide 1 Gallery.bare)).
Proof.
  split.
  - destruct (proj1 (layout_line 1 Sample.slide1)
                {| layout_name := Got (Some (lit "Title Slide")) |}
                (lit "Title Slide") eq_refl eq_refl) as [rest [E _]].
    + discriminate.
    + exists rest; exact E.
  - refine (proj1 (proj2 (layout_line 1 Gallery.bare) _)).
    right; exists {| layout_name := Got (Some []) |}; split; [reflexivity|].
    right; reflexivity.
Defined.

(** ** The order of a section *)

Lemma print_title_short (slide : Slide) : length (fst (print_title slide)) <= 1.
Proof.
  rewrite print_title_eq; destruct (title_text slide) as [[|c t]|]; simpl; lia.
Qed.

Lemma print_layout_short (slide : Slide) : length (fst (print_layout slide)) <= 1.
Proof.
  rewrite print_layout_eq.
  destruct (getattr (slide_layout slide) None) as [[l|]|e]; simpl; try lia.
  destruct (getattr (layout_name l) None) as [[[|c n]|]|e]; simpl; lia.
Qed.

Lemma print_notes_short (slide : Slide) : length (fst (print_notes slide)) <= 1.
Proof.
  unfold print_notes; destruct (collect_notes slide) as [[|t ts]|e]; simpl; lia.
Qed.

(** X10: the section of a slide whose pass completes is, in this order: the
    header; at most one "Title: " line; at most one "Layout: " line; one
    "Shape " line per shape; at most one "Notes: " line; either nothing or
    "Images in slide:" with at least one " -" line under it; an empty
    line. *)
Theorem section_order (i : nat) (slide : Slide) (sh : Shapes)
    (lines : list pystr) :
  shapes slide = Got sh ->
  print_slide i slide = (lines, Got tt) ->
  exists t l s n im,
    lines = slide_header i :: t ++ l ++ s ++ n ++ im ++ [[]]
    /\ length t <= 1 /\ Forall (begins "Title: ") t
    /\ length l <= 1 /\ Forall (begins "Layout: ") l
    /\ length s = length (shape_list sh) /\ Forall (begins "Shape ") s
    /\ length n <= 1 /\ Forall (begins "Notes: ") n
    /\ (im = []
        \/ exists item items,
             im = lit "Images in slide:" :: item :: items
             /\ Forall (begins " -") (item :: items)).
Proof.
  intros Hsh H.
  apply print_slide_completes in H as (sh' & shape_lines & Hsh' & Hp & ->).
  rewrite Hsh in Hsh'; apply Got_inj in Hsh'; subst sh'.
  exists (fst (print_title slide)), (fst (print_layout slide)), shape_lines,
    (fst (print_notes slide)), (fst (print_images slide)).
  split; [reflexivity|].
  split; [apply print_title_short|]; split; [apply print_title_lines|].
  split; [apply print_layout_short|]; split; [apply print_layout_lines|].
  split; [exact (proj1 (print_shapes_numbered slide (shape_list sh) 1 _ Hp))|].
  split.
  { pose proof (print_shapes_lines slide 1 (shape_list sh)) as Hall.
    now rewrite Hp in Hall. }
  split; [apply print_notes_short|]; split; [apply print_notes_begin|].
  rewrite print_images_eq.
  destruct (abind (part slide) _) as [[|it imgs]|e]; cbn [fst]; auto.
  right; eexists _, _; split; [reflexivity|].
  apply Forall_forall; intros x Hx.
  change (In x (map (fun it => lit " -" ++ lit " " ++ it) (it :: imgs))) in Hx.
  apply in_map_iff in Hx as [y [<- _]]; now exists (lit " " ++ y).
Qed.

(** X10 on the first sample slide. *)
Lemma section_order_witness :
  exists t l s n im,
    fst (print_slide 1 Sample.slide1)
    = slide_header 1 :: t ++ l ++ s ++ n ++ im ++ [[]]
    /\ length t <= 1 /\ length l <= 1 /\ length s = 3 /\ length n <= 1.
Proof.
  destruct (section_order 1 Sample.slide1 _ (fst (print_slide 1 Sample.slide1))
              eq_refl) as (t & l & s & n & im & E & Ht & _ & Hl & _ & Hs & _ & Hn & _).
  - vm_compute; reflexivity.
  - exists t, l, s, n, im; auto.
Defined.

(** ** Which inputs are converted *)

Lemma pystr_eqb_eq (a b : pystr) : pystr_eqb a b = true <-> a = b.
Proof.
  unfold pystr_eqb; destruct (list_eq_dec N.eq_dec a b); split; congruence.
Qed.

Lemma extension_excludes_pptx (file_arg ext : pystr) :
  lower (snd (splitext file_arg)) = ext ->
  ext = lit ".potx" \/ ext = lit ".odp" ->
  endswith (lower file_arg) (lit ".pptx") = false.
Proof.
  intros He Hext.
  rewrite <- (splitext_parts file_arg), lower_app, He.
  unfold endswith; rewrite rev_app_distr.
  destruct Hext as [-> | ->]; reflexivity.
Qed.

Lemma needs_convert_eq (file_arg : pystr) :
  needs_convert file_arg
  = pystr_eqb (lower (snd (splitext file_arg))) (lit ".potx")
    || pystr_eqb (lower (snd (splitext file_arg))) (lit ".odp").
Proof.
  unfold needs_convert; cbv zeta.
  destruct (pystr_eqb (lower (snd (splitext file_arg))) (lit ".potx")) eqn:E1.
  - apply pystr_eqb_eq in E1.
    now rewrite (extension_excludes_pptx file_arg _ E1 (or_introl eq_refl)).
  - destruct (pystr_eqb (lower (snd (splitext file_arg))) (lit ".odp")) eqn:E2;
      [|reflexivity].
    apply pystr_eqb_eq in E2.
    now rewrite (extension_excludes_pptx file_arg _ E2 (or_intror eq_refl)).
Qed.

(** X11: an input is put through the converter exactly when its extension -
    what follows the last dot of its last path component, letter case
    ignored - is ".potx" or ".odp"; the further test of line 123 that the
    name does not end in ".pptx" never changes the outcome. *)
Theorem converted_by_extension (file_arg : pystr) :
  (needs_convert file_arg = true
   <-> lower (snd (splitext file_arg)) = lit ".potx"
       \/ lower (snd (splitext file_arg)) = lit ".odp")
  /\ (lower (snd (splitext file_arg)) = lit ".potx"
      \/ lower (snd (splitext file_arg)) = lit ".odp" ->
      endswith (lower file_arg) (lit ".pptx") = false).
Proof.
  split.
  - rewrite needs_convert_eq, orb_true_iff, !pystr_eqb_eq; reflexivity.
  - intros H; exact (extension_excludes_pptx file_arg _ eq_refl H).
Qed.

(** X11 on "Deck.v2.ODP" and on "deck.pptx". *)
Lemma converted_by_extension_witness :
  needs_convert (lit "Deck.v2.ODP") = true
  /\ endswith (lower (lit "Deck.v2.ODP")) (lit ".pptx") = false
  /\ needs_convert (lit "deck.pptx") = false.
Proof.
  split; [|split].
  - apply (proj1 (converted_by_extension (lit "Deck.v2.ODP"))).
    right; reflexivity.
  - apply (proj2 (converted_by_extension (lit "Deck.v2.ODP"))).
    right; reflexivity.
  - destruct (needs_convert (lit "deck.pptx")) eqn:E; [|reflexivity].
    apply (proj1 (converted_by_extension (lit "deck.pptx"))) in E.
    destruct E as [E|E]; vm_compute in E; discriminate.
Defined.

(** X12: an input whose extension is neither ".potx" nor ".odp" - a ".pptx"
    file, a file without extension - is opened as it is, whether or not it
    exists: nothing is printed before the report, the search path is not
    consulted, no directory is created, the converter is not run, nothing
    is removed, and the run ends as the inspection ends. *)
Theorem other_inputs_opened_directly (E : Environment) (file : option pystr)
    (w : World) (file_arg : pystr) :
  choose_file w file = Some file_arg ->
  lower (snd (splitext file_arg)) <> lit ".potx" ->
  lower (snd (splitext file_arg)) <> lit ".odp" ->
  let report := summarize_presentation (open_pptx E (fs w)) file_arg in
  main E file w
  = ({| fs := fs w;
        stdout := stdout w ++ fst report;
        calls := calls w ++ [Open file_arg] |},
     match snd report with
     | Got _ => Returned
     | Raised e => Uncaught e
     end).
Proof.
  intros Hf H1 H2 report.
  assert (Hn : needs_convert file_arg = false).
  { rewrite needs_convert_eq.
    apply orb_false_iff; split;
      (destruct (pystr_eqb _ _) eqn:Eq; [apply pystr_eqb_eq in Eq; contradiction|
                                         reflexivity]). }
  unfold main; rewrite Hf; unfold convert; rewrite Hn.
  unfold inspect; subst report.
  destruct (summarize_presentation (open_pptx E (fs w)) file_arg) as [lines r].
  reflexivity.
Qed.

(** X12 on "deck.pptx", which does not exist, with LibreOffice installed. *)
Lemma other_inputs_opened_directly_witness :
  let E := sample_env true (Got tt) true (Some Sample.deck) in
  let w := empty_world [] in
  let report := summarize_presentation (open_pptx E (fs w)) (lit "deck.pptx") in
  main E (Some (lit "deck.pptx")) w
  = ({| fs := fs w;
        stdout := stdout w ++ fst report;
        calls := calls w ++ [Open (lit "deck.pptx")] |},
     match snd report with
     | Got _ => Returned
     | Raised e => Uncaught e
     end).
Proof.
  intros E w report.
  refine (other_inputs_opened_directly E (Some (lit "deck.pptx")) w
            (lit "deck.pptx") eq_refl _ _); vm_compute; discriminate.
Defined.

(** ** What the conversion step hands over *)

(** X13: what the conversion step hands over follows the converter's exit
    status.  When the step ends without raising for an input that needs
    converting, either no converter was found - then no directory is
    created, nothing is run, the warning "LibreOffice (soffice) not found;
    ..." is the one line printed and the original path is handed over - or
    the converter was run once in a fresh directory, that directory is
    handed over for removal, one line is printed, and the path handed over
    is <directory>/<stem>.pptx, announced by "Converted <input> -> <file>",
    exactly when the converter returned and that file exists afterwards; it
    is the original path, with "Conversion produced no .pptx; ...", when the
    converter returned without writing the file, and the original path, with
    "LibreOffice conversion failed; ...", when the converter ended with a
    non-zero status. *)
Theorem conversion_outcome (E : Environment) (file_arg : pystr) (w w1 : World)
    (tmp : option pystr) (path : pystr) :
  needs_convert file_arg = true ->
  convert E file_arg w = (w1, Got (tmp, path)) ->
  ((which E (lit "soffice") = None \/ which E (lit "soffice") = Some [])
   /\ tmp = None /\ path = file_arg
   /\ stdout w1 = stdout w ++ [not_found_message]
   /\ calls w1 = calls w /\ fs w1 = fs w)
  \/ exists soffice dir name files status,
       let d := path_join dir (lit "pptx_convert_" ++ name) in
       let candidate :=
         path_join d (fst (splitext (basename file_arg)) ++ lit ".pptx") in
       which E (lit "soffice") = Some soffice /\ nonempty soffice = true
       /\ mkdtemp E (fs w) = Got (dir, name)
       /\ subprocess_run E (soffice_argv soffice file_arg d) (d :: fs w)
          = (files, status)
       /\ tmp = Some d
       /\ fs w1 = files
       /\ calls w1 = calls w ++ [Mkdtemp d; Run (soffice_argv soffice file_arg d)]
       /\ ((status = Got tt /\ path_exists w1 candidate = true
            /\ path = candidate
            /\ stdout w1
               = stdout w ++ [lit "Converted " ++ file_arg ++ lit " -> " ++ candidate])
           \/ (status = Got tt /\ path_exists w1 candidate = false
               /\ path = file_arg
               /\ stdout w1
                  = stdout w
                      ++ [lit "Conversion produced no .pptx; will attempt to open original file"])
           \/ (status = Raised CalledProcessError
               /\ path = file_arg
               /\ stdout w1
                  = stdout w
                      ++ [lit "LibreOffice conversion failed; attempting to open original file"])).
Proof.
  intros Hn H; unfold convert in H; cbv zeta in H; rewrite Hn in H.
  assert (Hnone : (let (w0, printed) := say E not_found_message w in
                   (w0, abind printed (fun _ => Got (@None pystr, file_arg))))
                  = (w1, Got (tmp, path)) ->
                  tmp = None /\ path = file_arg
                  /\ stdout w1 = stdout w ++ [not_found_message]
                  /\ calls w1 = calls w /\ fs w1 = fs w).
  { destruct (say E not_found_message w) as [w0 printed] eqn:Hsay.
    destruct printed as [u|e]; [|discriminate].
    intros H0; injection H0 as <- <- <-.
    destruct (say_frame E _ _ _ _ Hsay) as [Hf Hc].
    pose proof (say_printed E _ _ _ _ Hsay) as Hp; auto. }
  destruct (which E (lit "soffice")) as [soffice|] eqn:Hw;
    [|left; split; [now left | now apply Hnone]].
  destruct (nonempty soffice) eqn:Hs.
  2:{ left; split; [right; now destruct soffice | now apply Hnone]. }
  clear Hnone; right; unfold run_conversion in H.
  destruct (mkdtemp E (fs w)) as [[dir name]|e]; [|discriminate].
  set (d := path_join dir (lit "pptx_convert_" ++ name)) in *.
  unfold try_convert in H; cbn [record fs stdout calls] in H.
  destruct (subprocess_run E (soffice_argv soffice file_arg d) (d :: fs w))
    as [files status] eqn:Hrun.
  exists soffice, dir, name, files, status; cbv zeta; fold d.
  destruct status as [[]|[]]; try discriminate.
  - destruct (path_exists _ _) eqn:Hex;
      destruct (say E _ _) as [w2 printed] eqn:Hsay;
      (destruct printed as [u|e];
       [|apply say_raises in Hsay as [-> _]; discriminate H]);
      injection H as <- <- <-;
      destruct (say_frame E _ _ _ _ Hsay) as [Hf Hc];
      pose proof (say_printed E _ _ _ _ Hsay) as Hp;
      cbn [record fs stdout calls] in Hf, Hc, Hp;
      assert (Hex' : path_exists w2 (path_join d (fst (splitext (basename file_arg))
                                                    ++ lit ".pptx")) = _)
        by (unfold path_exists in *; rewrite Hf; exact Hex);
      rewrite <- app_assoc in Hc.
    + repeat (split; [auto; fail|]); left; auto.
    + repeat (split; [auto; fail|]); right; left; auto.
  - destruct (say E _ _) as [w2 printed] eqn:Hsay.
    destruct printed as [u|e]; [|discriminate].
    injection H as <- <- <-.
    destruct (say_frame E _ _ _ _ Hsay) as [Hf Hc].
    pose proof (say_printed E _ _ _ _ Hsay) as Hp.
    cbn [record fs stdout calls] in Hf, Hc, Hp; rewrite <- app_assoc in Hc.
    repeat (split; [auto; fail|]); right; right; auto.
Qed.

(** X13 where the converter ends with a non-zero status and where it writes
    [template.pptx]. *)
Lemma conversion_outcome_witness :
  let w := empty_world [lit "template.potx"] in
  let bad := convert (sample_env true (Raised CalledProcessError) true None)
               (lit "template.potx") w in
  let good := convert (sample_env true (Got tt) true None) (lit "template.potx") w in
  snd bad = Got (Some (lit "/tmp/pptx_convert_k3x9"), lit "template.potx")
  /\ stdout (fst bad)
     = stdout w ++ [lit "LibreOffice conversion failed; attempting to open original file"]
  /\ snd good = Got (Some (lit "/tmp/pptx_convert_k3x9"),
                     lit "/tmp/pptx_convert_k3x9/template.pptx")
  /\ calls (fst good)
     = calls w ++ [Mkdtemp (lit "/tmp/pptx_convert_k3x9");
                   Run (soffice_argv (lit "/usr/bin/soffice") (lit "template.potx")
                          (lit "/tmp/pptx_convert_k3x9"))].
Proof.
  intros w bad good.
  split; [vm_compute; reflexivity|]; split; [|split; [vm_compute; reflexivity|]].
  - destruct (conversion_outcome
                (sample_env true (Raised CalledProcessError) true None)
                (lit "template.potx") w (fst bad)
                (Some (lit "/tmp/pptx_convert_k3x9")) (lit "template.potx"))
      as [[[Hw|Hw] _]|(soffice & dir & name & files & status & _ & _ & _ & Hrun
                       & _ & _ & _ & [(Hst & _)|[(Hst & _)|(_ & _ & Hp)]])];
      [vm_compute; reflexivity | vm_compute; reflexivity
       | discriminate Hw | discriminate Hw | | | exact Hp];
      rewrite Hst in Hrun; discriminate Hrun.
  - destruct (conversion_outcome (sample_env true (Got tt) true None)
                (lit "template.potx") w (fst good)
                (Some (lit "/tmp/pptx_convert_k3x9"))
                (lit "/tmp/pptx_convert_k3x9/template.pptx"))
      as [[[Hw|Hw] _]|(soffice & dir & name & files & status & Hw & _ & Hm & _
                       & _ & _ & Hc & _)];
      [vm_compute; reflexivity | vm_compute; reflexivity
       | discriminate Hw | discriminate Hw |].
    injection Hw as <-; injection Hm as <- <-; exact Hc.
Defined.

(** ** What the run leaves alone *)

Lemma path_exists_In (w : World) (p : pystr) :
  path_exists w p = true <-> In p (fs w).
Proof.
  unfold path_exists; rewrite existsb_exists; split.
  - intros [q [Hq E]]; apply pystr_eqb_eq in E; now subst q.
  - intros H; exists p; split; [exact H|now apply pystr_eqb_eq].
Qed.

Section Spared.

Variable E : Environment.

(** The converter deletes nothing. *)
Hypothesis Hadds : forall argv files q,
    In q files -> In q (fst (subprocess_run E argv files)).

Lemma try_convert_fs (soffice file_arg d path : pystr) (w w1 : World)
    (r : access unit) :
  try_convert E soffice file_arg d w = (w1, path, r) ->
  fs w1 = fst (subprocess_run E (soffice_argv soffice file_arg d) (fs w)).
Proof.
  unfold try_convert.
  destruct (subprocess_run E (soffice_argv soffice file_arg d) (fs w))
    as [files status]; cbn [fst].
  destruct status as [u|e]; [|intros H; now injection H as <- _ _].
  destruct (path_exists _ _);
    destruct (say E _ _) as [w2 printed] eqn:Hsay;
    intros H; injection H as <- _ _;
    now destruct (say_frame E _ _ _ _ Hsay) as [-> _].
Qed.

Lemma run_conversion_keeps (soffice file_arg : pystr) (w w1 : World)
    (r : access (option pystr * pystr)) :
  run_conversion E soffice file_arg w = (w1, r) ->
  (forall q, In q (fs w) -> In q (fs w1))
  /\ forall d path, r = Got (Some d, path) ->
       nonempty d = true /\ In (Mkdtemp d) (calls w1).
Proof.
  unfold run_conversion.
  destruct (mkdtemp E (fs w)) as [[dir name]|e].
  2:{ intros H; injection H as <- <-; split; [auto|discriminate]. }
  set (d := path_join dir (lit "pptx_convert_" ++ name)).
  assert (Hd : nonempty d = true) by (apply path_join_nonempty; reflexivity).
  destruct (try_convert E soffice file_arg d _) as [[w2 cp] res] eqn:Htry.
  pose proof (try_convert_fs _ _ _ _ _ _ _ Htry) as Hfs.
  pose proof (try_convert_calls E _ _ _ _ _ _ _ Htry) as Hcs.
  cbn [record fs calls] in Hfs, Hcs.
  assert (Hkeep : forall q, In q (fs w) -> In q (fs w2))
    by (intros q Hq; rewrite Hfs; apply Hadds; now right).
  assert (Hcall : In (Mkdtemp d) (calls w2))
    by (rewrite Hcs; apply in_or_app; left; apply in_or_app; right; now left).
  destruct res as [u|[]].
  - intros H; injection H as <- <-; split; [exact Hkeep|].
    intros d' path' Hr; injection Hr as <- _; auto.
  - intros H; injection H as <- <-; split; [exact Hkeep|discriminate].
  - destruct (say E _ w2) as [w3 printed] eqn:Hsay.
    destruct (say_frame E _ _ _ _ Hsay) as [Hf3 Hc3].
    intros H; injection H as <- <-; split; [now rewrite Hf3|].
    intros d' path' Hr; destruct printed as [u|e]; [|discriminate].
    cbn [abind] in Hr; injection Hr as <- _; rewrite Hc3; auto.
  - intros H; injection H as <- <-; split; [exact Hkeep|discriminate].
Qed.

Lemma convert_keeps (file_arg : pystr) (w w1 : World)
    (r : access (option pystr * pystr)) :
  convert E file_arg w = (w1, r) ->
  (forall q, In q (fs w) -> In q (fs w1))
  /\ forall d path, r = Got (Some d, path) ->
       nonempty d = true /\ In (Mkdtemp d) (calls w1).
Proof.
  unfold convert; cbv zeta.
  assert (Hnone : (let (w0, printed) := say E not_found_message w in
                   (w0, abind printed (fun _ => Got (@None pystr, file_arg))))
                  = (w1, r) ->
                  (forall q, In q (fs w) -> In q (fs w1))
                  /\ forall d path, r = Got (Some d, path) ->
                       nonempty d = true /\ In (Mkdtemp d) (calls w1)).
  { destruct (say E not_found_message w) as [w0 printed] eqn:Hsay.
    destruct (say_frame E _ _ _ _ Hsay) as [Hf _].
    intros H; injection H as <- <-; split; [now rewrite Hf|].
    intros d path Hr; destruct printed; cbn [abind] in Hr; discriminate. }
  destruct (needs_convert file_arg).
  2:{ intros H; injection H as <- <-; split; [auto|discriminate]. }
  destruct (which E (lit "soffice")) as [soffice|]; [|exact Hnone].
  destruct (nonempty soffice); [|exact Hnone].
  apply run_conversion_keeps.
Qed.

End Spared.

Lemma remove_tree_keeps (d : pystr) (files : list pystr) (p : pystr) :
  In p files -> under d p = false -> In p (remove_tree d files).
Proof.
  intros Hin Hu; unfold remove_tree; apply filter_In; split; [exact Hin|].
  now rewrite Hu.
Qed.

(** X14: a run removes nothing but the directory it created and what lies
    below it: provided the converter itself deletes nothing, every path that
    existed before the run and lies under no directory the run created still
    exists when the run ends, however it ends. *)
Theorem run_spares_other_files (E : Environment) (file : option pystr)
    (w w' : World) (r : outcome) (p : pystr) :
  (forall argv files q, In q files -> In q (fst (subprocess_run E argv files))) ->
  main E file w = (w', r) ->
  path_exists w p = true ->
  (forall d, In (Mkdtemp d) (calls w') -> under d p = false) ->
  path_exists w' p = true.
Proof.
  intros Hadds Hmain Hp Hout.
  apply path_exists_In; apply path_exists_In in Hp.
  unfold main in Hmain.
  destruct (choose_file w file) as [file_arg|].
  2:{ injection Hmain as <- _; exact Hp. }
  destruct (convert E file_arg w) as [w1 res] eqn:Hconv.
  destruct (convert_keeps E Hadds file_arg w w1 res Hconv) as [Hkeep Hdir].
  destruct res as [[tmp path]|e].
  2:{ injection Hmain as <- _; now apply Hkeep. }
  unfold inspect in Hmain.
  destruct (summarize_presentation (open_pptx E (fs w1)) path) as [lines res].
  injection Hmain as <- _.
  destruct tmp as [d|]; cbn [cleanup]; [|now apply Hkeep].
  destruct (Hdir d path eq_refl) as [Hd Hcall].
  rewrite Hd; unfold rmtree; cbn [fs].
  assert (Hu : under d p = false).
  { apply Hout.
    unfold cleanup, rmtree; rewrite Hd; cbn [fs].
    destruct (rmtree_error E d (fs w1)); cbn [fst record calls];
      apply in_or_app; left; apply in_or_app; left; exact Hcall. }
  destruct (rmtree_error E d (fs w1)); cbn [fst record fs].
  - now apply Hkeep.
  - apply remove_tree_keeps; [now apply Hkeep | exact Hu].
Qed.

(** X14 on a run that converts "template.potx" and removes its directory:
    the input is still there. *)
Lemma run_spares_other_files_witness :
  let E := sample_env true (Got tt) true (Some Sample.deck) in
  let w := empty_world [lit "template.potx"] in
  let run := main E (Some (lit "template.potx")) w in
  In (Rmtree (lit "/tmp/pptx_convert_k3x9")) (calls (fst run))
  /\ path_exists (fst run) (lit "template.potx") = true.
Proof.
  intros E w run.
  split; [vm_compute; do 3 right; left; reflexivity|].
  refine (run_spares_other_files E (Some (lit "template.potx")) w (fst run)
            (snd run) (lit "template.potx") _ (surjective_pairing run)
            eq_refl _).
  - intros argv files q Hq; simpl; now right.
  - intros d Hd.
    assert (Hc : calls (fst run)
                 = [Mkdtemp (lit "/tmp/pptx_convert_k3x9");
                    Run (soffice_argv (lit "/usr/bin/soffice") (lit "template.potx")
                           (lit "/tmp/pptx_convert_k3x9"));
                    Open (lit "/tmp/pptx_convert_k3x9/template.pptx");
                    Rmtree (lit "/tmp/pptx_convert_k3x9")])
      by (vm_compute; reflexivity).
    rewrite Hc in Hd.
    destruct Hd as [Hd|[Hd|[Hd|[Hd|[]]]]]; try discriminate.
    injection Hd as <-; vm_compute; reflexivity.
Defined.

(** ** One line each *)

Lemma in_firstn {A} (n : nat) (l : list A) (a : A) : In a (firstn n l) -> In a l.
Proof.
  intros H; rewrite <- (firstn_skipn n l); apply in_or_app; now left.
Qed.

Lemma in_join (sep : pystr) (parts : list pystr) (c : pychar) :
  In c (join sep parts) -> In c sep \/ exists p, In p parts /\ In c p.
Proof.
  induction parts as [|p [|q rest] IH]; intros H.
  - destruct H.
  - right; exists p; split; [now left|exact H].
  - change (join sep (p :: q :: rest)) with (p ++ sep ++ join sep (q :: rest)) in H.
    apply in_app_or in H as [H|H]; [right; exists p; split; [now left|exact H]|].
    apply in_app_or in H as [H|H]; [now left|].
    destruct (IH H) as [Hs|[x [Hx Hc]]]; [now left|].
    right; exists x; split; [now right|exact Hc].
Qed.

(** X15: neither the text snippet of a shape line nor the text of the
    "Notes:" line holds a line feed, whatever the texts read from the
    document: each is printed on a line of its own. *)
Theorem texts_hold_no_line_feed :
  (forall raw, ~ In LF (snippet (normalize raw)))
  /\ (forall slide texts,
         collect_notes slide = Got texts -> ~ In LF (notes_join texts)).
Proof.
  split.
  - intros raw H; unfold snippet in H.
    apply in_app_or in H as [H|H].
    + apply in_firstn in H.
      destruct (normalize_spec raw) as (_ & _ & Hlf & _); now apply Hlf.
    + destruct (300 <? length (normalize raw)); [|destruct H].
      destruct H as [H|[H|[H|[]]]]; discriminate.
  - intros slide texts Hc H; unfold notes_join in H.
    apply in_firstn, in_join in H as [H|[t [Ht H]]].
    + destruct H as [H|[H|[H|[]]]]; discriminate.
    + unfold collect_notes in Hc.
      apply abind_got in Hc as [ns [_ Hc]].
      apply abind_got in Hc as [l [_ Hc]].
      apply notes_texts_clean in Hc.
      rewrite Forall_forall in Hc.
      destruct (Hc t Ht) as (raw & -> & _).
      destruct (normalize_spec raw) as (_ & _ & Hlf & _); now apply Hlf.
Qed.

(** X15 on a text of two lines and on the notes of the first sample slide. *)
Lemma texts_hold_no_line_feed_witness :
  snippet (normalize Sample.heading_text) = lit "Welcome to DISCO"
  /\ ~ In LF (snippet (normalize Sample.heading_text))
  /\ ~ In LF (notes_join [lit "remember to smile"; lit "keep it short"]).
Proof.
  split; [vm_compute; reflexivity|]; split.
  - exact (proj1 texts_hold_no_line_feed Sample.heading_text).
  - refine (proj2 texts_hold_no_line_feed Sample.slide1 _ _).
    vm_compute; reflexivity.
Defined.

(** ** Sections of a run that completes *)

(** X16: for a document that opens, a run that completes has printed
    exactly one section header per slide, numbered 1 to N in order, and its
    section and shape lines are, one for one and in document order, the
    slides and their shapes; a run completes whenever the reads outside the
    handlers succeed; and every run, complete or not, has printed the
    headers of the first k slides in order, each once. *)
Theorem sections_in_document_order
    (open_pptx : pystr -> access Presentation) (path : pystr)
    (prs : Presentation) :
  open_pptx path = Got prs ->
  let report := summarize_presentation open_pptx path in
  (snd report = Got tt ->
   filter is_slide_header (fst report)
   = map slide_header (seq 1 (length (slides prs)))
   /\ Forall2 shows (outline prs) (structure (fst report)))
  /\ (forallb readable_slide (slides prs) = true -> snd report = Got tt)
  /\ (exists k, k <= length (slides prs)
                /\ filter is_slide_header (fst report)
                   = map slide_header (seq 1 k)).
Proof.
  intros Hopen report; subst report.
  rewrite (summarize_opened open_pptx path prs Hopen); cbn [fst snd].
  destruct (headers_in_order 1 (slides prs)) as (k & Hk & E & Hall).
  split; [|split].
  - intros Hdone; split.
    + cbn [filter].
      change (is_slide_header (lit "File: " ++ path)) with false.
      change (is_slide_header (lit "Slide count: "
                                 ++ str_of_nat (length (slides prs)))) with false.
      change (is_slide_header []) with false.
      cbv iota. rewrite E, (Hall Hdone); reflexivity.
    + unfold structure; cbn [filter].
      change (is_slide_header (lit "File: " ++ path)) with false.
      change (is_shape_line (lit "File: " ++ path)) with false.
      change (is_slide_header (lit "Slide count: "
                                 ++ str_of_nat (length (slides prs)))) with false.
      change (is_shape_line (lit "Slide count: "
                               ++ str_of_nat (length (slides prs)))) with false.
      change (is_slide_header []) with false.
      change (is_shape_line []) with false.
      cbn [orb]; cbv iota.
      apply print_slides_structure.
      destruct (print_slides 1 (slides prs)) as [o r]; cbn [snd] in Hdone.
      now rewrite Hdone.
  - apply readable_slides_complete.
  - exists k; split; [exact Hk|].
    cbn [filter].
    change (is_slide_header (lit "File: " ++ path)) with false.
    change (is_slide_header (lit "Slide count: "
                               ++ str_of_nat (length (slides prs)))) with false.
    change (is_slide_header []) with false.
    cbv iota; exact E.
Qed.

(** X16 on the sample deck of two slides. *)
Lemma sections_in_document_order_witness :
  let report := summarize_presentation (fun _ => Got Sample.deck) (lit "deck.pptx") in
  snd report = Got tt
  /\ filter is_slide_header (fst report) = map slide_header (seq 1 2)
  /\ Forall2 shows (outline Sample.deck) (structure (fst report)).
Proof.
  intros report.
  assert (H : snd report = Got tt) by (vm_compute; reflexivity).
  split; [exact H|].
  exact (proj1 (sections_in_document_order
                  (fun _ => Got Sample.deck) (lit "deck.pptx") Sample.deck eq_refl)
               H).
Defined.
